(** * tuiForms: typed terminal form fields and forms

    A shallow embedding of [fields.py], [forms.py] and [exceptions.py].

    Python objects are records, attribute mutation is explicit state
    passing, exceptions are the [Raise] branch of [result], and the terminal
    is a [world] holding the lines still to be typed and the trace of what
    was written.  A [str] is the [string] of its UTF-8 bytes, an [int] is
    in [Z] and a [float] is a binary64 float.  Python's builtins ([int] and
    [float] of a text, [strptime], [hash], [round], [re.fullmatch], string
    formatting) and the missing [utils] module are members of the
    [Builtins] class: the development holds for every implementation of
    them. *)

From Stdlib Require Import ZArith List String Ascii Bool Lia Floats.
From Stdlib Require Import DecimalString.
Import ListNotations.
Open Scope string_scope.
Open Scope Z_scope.

(** ** Python values *)

Module Py.

(** Python numbers as the fields meet them: [int] is unbounded, [float] is
    IEEE binary64. *)
Inductive pynum :=
| PyInt (z : Z)
| PyFloat (f : float).

(** [datetime.datetime] without a time zone. *)
Record datetime := mkDatetime {
  year : Z; month : Z; day : Z;
  hour : Z; minute : Z; second : Z; microsecond : Z }.

Inductive pytype :=
  T_str | T_int | T_float | T_datetime | T_NoneType | T_type.

Inductive pyval :=
| VNone
| VNum (n : pynum)
| VStr (s : string)
| VDate (d : datetime)
| VType (t : pytype).

(** Exceptions, with the [args] they were built from.  [ValidateError] is
    [exceptions.ValidateError(text, *args)]. *)
Inductive exn :=
| ValidateError (text : string) (args : list pyval)
| ValueError (text : string) (args : list pyval)
| TypeError
| AttributeError
| EOFError
| OverflowError
| KeyError (key : string)
| IndexError.

Inductive result (A : Type) :=
| Ok (a : A)
| Raise (e : exn).
Arguments Ok {A} a.
Arguments Raise {A} e.

Definition bind {A B} (m : result A) (k : A -> result B) : result B :=
  match m with
  | Ok a => k a
  | Raise e => Raise e
  end.

Declare Scope py_scope.
Delimit Scope py_scope with py.
Notation "x <- m ;; k" := (bind m (fun x => k))
  (at level 100, m at next level, right associativity) : py_scope.

Definition is_ValidateError (e : exn) : bool :=
  match e with ValidateError _ _ => true | _ => false end.

(** *** Comparison of numbers

    An [int] and a [float] are compared by their exact values, as CPython
    does; a NaN compares false with everything. *)
Definition cmp_Z_float (z : Z) (f : float) : option comparison :=
  match Prim2SF f with
  | S754_nan => None
  | S754_infinity s => Some (if s then Gt else Lt)
  | S754_zero _ => Some (z ?= 0)
  | S754_finite s m e =>
      let mz := if s then Z.neg m else Z.pos m in
      if 0 <=? e then Some (z ?= mz * 2 ^ e)
      else Some (z * 2 ^ (- e) ?= mz)
  end.

Definition is_cmp (c : comparison) (o : option comparison) : bool :=
  match o, c with
  | Some Lt, Lt | Some Eq, Eq | Some Gt, Gt => true
  | _, _ => false
  end.

(** [a < b] *)
Definition num_lt (a b : pynum) : bool :=
  match a, b with
  | PyInt x, PyInt y => x <? y
  | PyFloat x, PyFloat y => PrimFloat.ltb x y
  | PyInt x, PyFloat y => is_cmp Lt (cmp_Z_float x y)
  | PyFloat x, PyInt y => is_cmp Gt (cmp_Z_float y x)
  end.

(** [a > b] *)
Definition num_gt (a b : pynum) : bool :=
  match a, b with
  | PyInt x, PyInt y => x >? y
  | PyFloat x, PyFloat y => PrimFloat.ltb y x
  | PyInt x, PyFloat y => is_cmp Gt (cmp_Z_float x y)
  | PyFloat x, PyInt y => is_cmp Lt (cmp_Z_float y x)
  end.

(** [a == b] *)
Definition num_eq (a b : pynum) : bool :=
  match a, b with
  | PyInt x, PyInt y => x =? y
  | PyFloat x, PyFloat y => PrimFloat.eqb x y
  | PyInt x, PyFloat y => is_cmp Eq (cmp_Z_float x y)
  | PyFloat x, PyInt y => is_cmp Eq (cmp_Z_float y x)
  end.

(** [n - 2] *)
Definition minus_two (n : pynum) : pynum :=
  match n with
  | PyInt z => PyInt (z - 2)
  | PyFloat f => PyFloat (PrimFloat.sub f 2%float)
  end.

(** [bool(n)]: a number is false exactly when it equals zero. *)
Definition num_truthy (n : pynum) : bool :=
  match n with
  | PyInt z => negb (z =? 0)
  | PyFloat f => negb (PrimFloat.eqb f 0%float)
  end.

(** Truth value of an attribute that holds [None] or a number. *)
Definition truthy (o : option pynum) : bool :=
  match o with
  | None => false
  | Some n => num_truthy n
  end.

(** Truth value of an attribute that holds [None] or a string. *)
Definition str_truthy (o : option string) : bool :=
  match o with
  | None | Some EmptyString => false
  | Some _ => true
  end.

(** Truth value of an attribute that holds [None] or an object whose class
    defines neither [__bool__] nor [__len__] (a [datetime]). *)
Definition obj_truthy {A} (o : option A) : bool :=
  match o with
  | None => false
  | Some _ => true
  end.

(** *** Comparison of datetimes: lexicographic on the fields. *)
Definition lex (c1 c2 : comparison) : comparison :=
  match c1 with
  | Eq => c2
  | _ => c1
  end.

Definition dt_compare (a b : datetime) : comparison :=
  lex (year a ?= year b)
  (lex (month a ?= month b)
  (lex (day a ?= day b)
  (lex (hour a ?= hour b)
  (lex (minute a ?= minute b)
  (lex (second a ?= second b)
       (microsecond a ?= microsecond b)))))).

Definition dt_lt (a b : datetime) : bool :=
  match dt_compare a b with Lt => true | _ => false end.

Definition dt_gt (a b : datetime) : bool :=
  match dt_compare a b with Gt => true | _ => false end.

(** [a == b] on values; values of different types are never equal. *)
Definition dt_eq (a b : datetime) : bool :=
  match dt_compare a b with Eq => true | _ => false end.

Definition type_eq (a b : pytype) : bool :=
  match a, b with
  | T_str, T_str | T_int, T_int | T_float, T_float
  | T_datetime, T_datetime | T_NoneType, T_NoneType | T_type, T_type => true
  | _, _ => false
  end.

Definition py_eq (a b : pyval) : bool :=
  match a, b with
  | VNone, VNone => true
  | VNum x, VNum y => num_eq x y
  | VStr x, VStr y => String.eqb x y
  | VDate x, VDate y => dt_eq x y
  | VType x, VType y => type_eq x y
  | _, _ => false
  end.

(** *** Ordering of values

    [a < b] and [a > b] on arbitrary values: numbers with numbers, strings
    with strings, datetimes with datetimes; anything else ([None] included)
    supports no ordering and raises [TypeError]. *)
Definition py_lt (a b : pyval) : result bool :=
  match a, b with
  | VNum x, VNum y => Ok (num_lt x y)
  | VStr x, VStr y => Ok (String.ltb x y)
  | VDate x, VDate y => Ok (dt_lt x y)
  | _, _ => Raise TypeError
  end.

Definition py_gt (a b : pyval) : result bool :=
  match a, b with
  | VNum x, VNum y => Ok (num_gt x y)
  | VStr x, VStr y => Ok (String.ltb y x)
  | VDate x, VDate y => Ok (dt_gt x y)
  | _, _ => Raise TypeError
  end.

(** The value of an attribute that holds [None] or a number. *)
Definition of_bound (o : option pynum) : pyval :=
  match o with
  | None => VNone
  | Some n => VNum n
  end.

(** The value of an attribute that holds [None] or a string. *)
Definition of_str (o : option string) : pyval :=
  match o with
  | None => VNone
  | Some s => VStr s
  end.

(** [l.append(x)] *)
Definition append {A} (l : list A) (x : A) : list A := (l ++ [x])%list.

(** The value of an attribute that holds [None] or a datetime. *)
Definition of_date (o : option datetime) : pyval :=
  match o with
  | None => VNone
  | Some d => VDate d
  end.

(** [type(v)] *)
Definition type_of (v : pyval) : pytype :=
  match v with
  | VNone => T_NoneType
  | VNum (PyInt _) => T_int
  | VNum (PyFloat _) => T_float
  | VStr _ => T_str
  | VDate _ => T_datetime
  | VType _ => T_type
  end.

(** [int(f)] of a float: the integer part, towards zero; no integer for a
    NaN ([ValueError]) nor for an infinity ([OverflowError]). *)
Definition int_of_float (f : float) : result Z :=
  match Prim2SF f with
  | S754_nan => Raise (ValueError "cannot convert float NaN to integer" [])
  | S754_infinity _ => Raise OverflowError
  | S754_zero _ => Ok 0
  | S754_finite s m e =>
      let q := if 0 <=? e then Z.pos m * 2 ^ e else Z.pos m / 2 ^ (- e) in
      Ok (if s then - q else q)
  end.

(** [float(z)] of an int: the nearest float, ties to even;
    [OverflowError] when that is beyond the largest float. *)
Definition float_of_int (z : Z) : result float :=
  match binary_normalize prec emax z 0 false with
  | S754_infinity _ => Raise OverflowError
  | f => Ok (SF2Prim f)
  end.

(** ** The terminal *)

Inductive TerminalColors := BOLD | RED.

Inductive event :=
| Prompted (text : string)   (* the prompt written by [input(text)] *)
| Printed (text : string).   (* a line written by [print(text)] *)

Record world := mkWorld {
  stdin : list string;       (* the lines not yet read *)
  stdout : list event }.

(** ** Builtins *)

(** What [str.format] raises. *)
Inductive format_error :=
| FormatValueError (text : string)
| FormatKeyError (key : string)
| FormatIndexError.

Definition raise_format_error (e : format_error) : exn :=
  match e with
  | FormatValueError text => ValueError text []
  | FormatKeyError key => KeyError key
  | FormatIndexError => IndexError
  end.

Class Builtins := {
  (** [int(s)]; [None] is [ValueError] *)
  py_int : string -> option Z;
  (** [float(s)]; [None] is [ValueError] *)
  py_float : string -> option float;
  (** [datetime.datetime.strptime(s, fmt)]; [None] is [ValueError] *)
  strptime : string -> string -> option datetime;
  (** [d.strftime(fmt)] *)
  strftime : datetime -> string -> string;
  (** [re.fullmatch(pattern, s)] as a truth value *)
  re_fullmatch : string -> string -> bool;
  (** [hash(v)] *)
  py_hash : pyval -> Z;
  (** [round(x, ndigits)] *)
  py_round : pynum -> Z -> pynum;
  (** [str(v)] of a value that is not a string *)
  py_repr : pyval -> string;
  (** [template.format] applied to the arguments, for the templates of
      the error messages: literals whose placeholders are all [{}] and as
      many as the arguments *)
  py_format : string -> list pyval -> string;
  (** [template.format] applied to the arguments, for any template: the
      text, or the exception raised on a template whose braces do not
      form placeholders the arguments can fill *)
  str_format : string -> list pyval -> string + format_error;
  (** [ex.__str__()] of an exception built from [text, *args] *)
  exn_str : string -> list pyval -> string;
  (** [s.upper()] *)
  str_upper : string -> string;
  (** [utils.format_str(s, color)] *)
  format_str : string -> TerminalColors -> string }.

(** [str(v)] *)
Definition py_str {B : Builtins} (v : pyval) : string :=
  match v with
  | VStr s => s
  | _ => py_repr v
  end.

(** A text is held as its UTF-8 encoding.  A byte [10xxxxxx] continues a
    character; every other byte starts one. *)
Definition starts_char (a : ascii) : bool :=
  negb ((128 <=? nat_of_ascii a)%nat && (nat_of_ascii a <? 192)%nat).

Fixpoint count_chars (s : string) : nat :=
  match s with
  | EmptyString => O
  | String a s => ((if starts_char a then 1 else 0) + count_chars s)%nat
  end.

(** [len(s)]: the number of characters of [s]. *)
Definition py_len (s : string) : Z := Z.of_nat (count_chars s).

Section Calls.
Context {B : Builtins}.

(** [template.format] applied to the arguments, as a call that may raise. *)
Definition format (template : string) (args : list pyval) : result string :=
  match str_format template args with
  | inl text => Ok text
  | inr e => Raise (raise_format_error e)
  end.

(** [int(v)] *)
Definition int_ (v : pyval) : result pyval :=
  match v with
  | VNum (PyInt z) => Ok (VNum (PyInt z))
  | VNum (PyFloat f) => (z <- int_of_float f ;; Ok (VNum (PyInt z)))%py
  | VStr s =>
      match py_int s with
      | Some z => Ok (VNum (PyInt z))
      | None =>
          Raise (ValueError
            ("invalid literal for int() with base 10: " ++ py_repr v) [])
      end
  | VNone | VDate _ | VType _ => Raise TypeError
  end.

(** [float(v)] *)
Definition float_ (v : pyval) : result pyval :=
  match v with
  | VNum (PyInt z) => (f <- float_of_int z ;; Ok (VNum (PyFloat f)))%py
  | VNum (PyFloat f) => Ok (VNum (PyFloat f))
  | VStr s =>
      match py_float s with
      | Some f => Ok (VNum (PyFloat f))
      | None =>
          Raise (ValueError
            ("could not convert string to float: " ++ py_repr v) [])
      end
  | VNone | VDate _ | VType _ => Raise TypeError
  end.

(** [t(v)]: the type [t] called on one argument.  [datetime.datetime]
    and [NoneType] take no such argument. *)
Definition call_type (t : pytype) (v : pyval) : result pyval :=
  match t with
  | T_str => Ok (VStr (py_str v))
  | T_int => int_ v
  | T_float => float_ v
  | T_type => Ok (VType (type_of v))
  | T_datetime | T_NoneType => Raise TypeError
  end.

(** [datetime.datetime.strptime(v, fmt)]: [TypeError] unless [v] is a
    string, [ValueError] when it does not parse. *)
Definition strptime_ (v : pyval) (fmt : string) : result pyval :=
  match v with
  | VStr s =>
      match strptime s fmt with
      | Some d => Ok (VDate d)
      | None =>
          Raise (ValueError
            ("time data " ++ py_repr v ++ " does not match format "
             ++ py_repr (VStr fmt)) [])
      end
  | _ => Raise TypeError
  end.

(** The exceptions that [except (ValueError, TypeError)] handles. *)
Definition is_ValueError_or_TypeError (e : exn) : bool :=
  match e with
  | ValueError _ _ | TypeError => true
  | _ => false
  end.

End Calls.

End Py.
Import Py.
Open Scope py_scope.

(** ** fields.py *)

Definition _DEFAULT_MAX_LENGTH : Z := 256.

(** The attributes a class adds to [label], [hint] and [_value]. *)
Record numeric_attrs := mkNumeric {
  min_value : option pynum;
  max_value : option pynum }.

Record date_attrs := mkDate {
  earlier_than : option datetime;
  later_than : option datetime }.

(** The class of an input field, with the attributes of that class.
    [max_length] is [None] or an [int]. *)
Inductive field_class :=
| C_InputField
| C_IntegerField (n : numeric_attrs)
| C_FloatField (n : numeric_attrs) (mantissa : Z)
| C_StringField (max_length : option Z)
| C_HashedField (max_length : option Z)
| C_EmailField (max_length : option Z)
| C_PhoneNumberField (max_length : option Z)
| C_DateField (d : date_attrs).

(** An input field object. *)
Record field := mkField {
  cls : field_class;
  label : string;
  hint : option string;
  _value : pyval }.

Definition set__value (self : field) (v : pyval) : field :=
  {| cls := cls self; label := label self; hint := hint self; _value := v |}.

(** [value_type] of each class. *)
Definition value_type (c : field_class) : pytype :=
  match c with
  | C_InputField => T_str
  | C_IntegerField _ => T_int
  | C_FloatField _ _ => T_float
  | C_StringField _ | C_HashedField _ | C_EmailField _
  | C_PhoneNumberField _ => T_str
  | C_DateField _ => T_datetime
  end.

Module _Field.

(** [_Field.__init__] leaves [_value] at [None]; the [value] property
    returns [_value]. *)
Definition value (self : field) : result pyval := Ok (_value self).

End _Field.

Module _InputField.
Section Methods.
Context {B : Builtins}.

Definition __init__ (c : field_class) (label : string)
    (hint : option string) : field :=
  {| cls := c; label := label; hint := hint; _value := VNone |}.

(** [self.value_type(value)], a [ValueError] or [TypeError] of the call
    replaced by a [ValidateError]; any other exception goes through. *)
Definition _convert_type (self : field) (value : pyval) : result pyval :=
  match call_type (value_type (cls self)) value with
  | Ok value => Ok value
  | Raise e =>
      if is_ValueError_or_TypeError e then
        Raise (ValidateError
          "value_type declared does not match with provided value's type"
          [VType (value_type (cls self)); VType (type_of value)])
      else Raise e
  end.

Definition validate (self : field) (value : pyval) : result (option exn) :=
  Ok None.

(** The text [_formatted_input] passes to [input]. *)
Definition _formatted_input (self : field) : result string :=
  if str_truthy (hint self) then
    Ok (format_str (label self) BOLD ++ " (" ++ py_str (of_str (hint self)) ++ "): ")
  else
    Ok (format_str (label self) BOLD ++ ": ").

End Methods.
End _InputField.

Module _NumericField.
Section Methods.
Context {B : Builtins}.

(** [__init__(label, max_value=None, min_value=None, hint=None)]; [mk]
    is the class being constructed. *)
Definition __init__ (mk : numeric_attrs -> field_class) (label : string)
    (max_value min_value : option pynum) (hint : option string)
    : result field :=
  gt <- py_gt (of_bound min_value) (of_bound max_value) ;;
  let min_value :=
    if gt then option_map minus_two max_value else min_value in
  Ok (_InputField.__init__ (mk (mkNumeric min_value max_value)) label hint).

Definition _formatted_input (n : numeric_attrs) (self : field)
    : result string :=
  let s := format_str (label self) BOLD ++ " " ++ "({}): " in
  let ad :=
    if str_truthy (hint self)
    then append [] (py_str (of_str (hint self)) ++ ", ")
    else [] in
  let ad :=
    if truthy (min_value n) && negb (truthy (max_value n)) then
      append ad (">" ++ py_str (of_bound (min_value n)))
    else if (truthy (max_value n) && negb (truthy (min_value n)))
            || (truthy (max_value n) && truthy (min_value n)
                && py_eq (of_bound (max_value n)) (VNum (PyInt 0))) then
      append ad ("<" ++ py_str (of_bound (max_value n)))
    else if truthy (min_value n) && truthy (max_value n) then
      append ad (py_str (of_bound (min_value n)) ++ " < n < "
                 ++ py_str (of_bound (max_value n)))
    else ad in
  (* [while len(ad) != 2: ad.append('')]; [ad] has at most two entries *)
  let ad := (ad ++ repeat "" (2 - List.length ad)%nat)%list in
  format s (map VStr ad).

Definition validate (n : numeric_attrs) (self : field) (value : pyval)
    : result (option exn) :=
  if truthy (min_value n) && negb (truthy (max_value n)) then
    lt <- py_lt (of_bound (min_value n)) value ;;
    if negb lt then
      Ok (Some (ValidateError
        (py_format "min_value = {}, input = {}"
           [of_bound (min_value n); value]) []))
    else _InputField.validate self value
  else if truthy (max_value n) && negb (truthy (min_value n)) then
    gt <- py_gt (of_bound (max_value n)) value ;;
    if negb gt then
      Ok (Some (ValidateError
        (py_format "max_value = {}, input = {}"
           [of_bound (max_value n); value]) []))
    else _InputField.validate self value
  else if truthy (max_value n) && truthy (min_value n) then
    lo <- py_lt (of_bound (min_value n)) value ;;
    between <- (if lo then py_lt value (of_bound (max_value n))
                else Ok false) ;;
    if negb between then
      Ok (Some (ValidateError
        (py_format "{} < {} < {} != True"
           [of_bound (min_value n); value; of_bound (max_value n)]) []))
    else _InputField.validate self value
  else _InputField.validate self value.

End Methods.
End _NumericField.

Module IntegerField.
Section Methods.
Context {B : Builtins}.

Definition __init__ (label : string) (max_value min_value : option pynum)
    (hint : option string) : result field :=
  _NumericField.__init__ C_IntegerField label max_value min_value hint.

End Methods.
End IntegerField.

Module FloatField.
Section Methods.
Context {B : Builtins}.

(** [__init__(label, mantissa=2, max_value=None, min_value=None,
    hint=None)] *)
Definition __init__ (label : string) (mantissa : Z)
    (max_value min_value : option pynum) (hint : option string)
    : result field :=
  _NumericField.__init__ (fun n => C_FloatField n mantissa)
    label max_value min_value hint.

(** The [value] getter: [round(self._value, self.mantissa)]. *)
Definition value (mantissa : Z) (self : field) : result pyval :=
  match _value self with
  | VNum x => Ok (VNum (py_round x mantissa))
  | _ => Raise TypeError
  end.

End Methods.
End FloatField.

Module StringField.
Section Methods.
Context {B : Builtins}.

(** [__init__(label, hint=None, max_length=_DEFAULT_MAX_LENGTH)]; [mk] is
    the class being constructed. *)
Definition __init__ (mk : option Z -> field_class) (label : string)
    (hint : option string) (max_length : option Z) : field :=
  _InputField.__init__ (mk max_length) label hint.

Definition validate (max_length : option Z) (self : field) (value : pyval)
    : result (option exn) :=
  match max_length with
  | Some m =>
      if negb (m =? 0) && (py_len (py_str value) >? m) then
        Ok (Some (ValidateError "max_length has been exceeded"
                    [VNum (PyInt m)]))
      else _InputField.validate self value
  | None => _InputField.validate self value
  end.

Definition _formatted_input (max_length : option Z) (self : field)
    : result string :=
  let max_length_set :=
    match max_length with Some m => negb (m =? 0) | None => false end in
  let shown :=
    py_str (match max_length with Some m => VNum (PyInt m) | None => VNone end) in
  if str_truthy (hint self) && max_length_set then
    Ok (format_str (label self) BOLD ++ " "
        ++ "(" ++ py_str (of_str (hint self)) ++ ", max. " ++ shown ++ "): ")
  else if str_truthy (hint self) then
    Ok (format_str (label self) BOLD ++ " "
        ++ "(" ++ py_str (of_str (hint self)) ++ "): ")
  else if max_length_set then
    Ok (format_str (label self) BOLD ++ " (max. " ++ shown ++ "): ")
  else
    Ok (format_str (label self) BOLD ++ ": ").

End Methods.
End StringField.

Module HashedField.
Section Methods.
Context {B : Builtins}.

(** The [value] getter: [hash(self._value)]. *)
Definition value (self : field) : result pyval :=
  Ok (VNum (PyInt (py_hash (_value self)))).

End Methods.
End HashedField.

Module EmailField.
Section Methods.
Context {B : Builtins}.

Definition r : string :=
  "([A-Za-z0-9]+[.-_])*[A-Za-z0-9]+@[A-Za-z0-9-]+(\.[A-Z|a-z]{2,})+".

Definition validate (max_length : option Z) (self : field) (value : pyval)
    : result (option exn) :=
  match value with
  | VStr s =>
      if negb (re_fullmatch r s) then
        Ok (Some (ValidateError "can't extract email from string " [value]))
      else StringField.validate max_length self value
  | _ => Raise TypeError
  end.

End Methods.
End EmailField.

Module PhoneNumberField.
Section Methods.
Context {B : Builtins}.

Definition r : string :=
  "^\+((?:9[679]|8[035789]|6[789]|5[90]|42|3[578]|2[1-689])|9[0-58]|8[1246]|6[0-6]|5[1-8]|4[013-9]|"
  ++ "3[0-469]|2[70]|7|1)(?:\W*\d){0,13}\d$".

Definition validate (max_length : option Z) (self : field) (value : pyval)
    : result (option exn) :=
  match value with
  | VStr s =>
      if negb (re_fullmatch r s) then
        Ok (Some (ValidateError "can't extract phone number from string"
                    [value]))
      else StringField.validate max_length self value
  | _ => Raise TypeError
  end.

End Methods.
End PhoneNumberField.

Module DateField.
Section Methods.
Context {B : Builtins}.

Definition format_string : string := "%d.%m.%Y".

(** [o.strftime(self.format_string)] where [o] may be [None], which has no
    such attribute. *)
Definition strftime_of (o : option datetime) : result string :=
  match o with
  | Some d => Ok (strftime d format_string)
  | None => Raise AttributeError
  end.

(** [__init__(label, earlier_than=None, later_than=None, hint=None)] *)
Definition __init__ (label : string)
    (earlier_than later_than : option datetime) (hint : option string)
    : result field :=
  let self :=
    _InputField.__init__ (C_DateField (mkDate earlier_than later_than))
      label hint in
  if obj_truthy earlier_than && obj_truthy later_than then
    lt <- py_lt (of_date later_than) (of_date earlier_than) ;;
    if negb lt then
      Raise (ValueError
        "later_than value should be smaller than earlier_than"
        [of_date earlier_than; of_date later_than])
    else Ok self
  else Ok self.

Definition validate (d : date_attrs) (self : field) (value : pyval)
    : result (option exn) :=
  earlier_than_f <-
    (if obj_truthy (earlier_than d) then strftime_of (earlier_than d)
     else Ok "") ;;
  later_than_f <-
    (if obj_truthy (later_than d) then strftime_of (later_than d)
     else Ok "") ;;
  if obj_truthy (earlier_than d) && negb (obj_truthy (later_than d)) then
    lt <- py_lt value (of_date (earlier_than d)) ;;
    if negb lt then
      Ok (Some (ValidateError
        ("should be earlier than " ++ earlier_than_f) []))
    else _InputField.validate self value
  else if obj_truthy (later_than d) && negb (obj_truthy (earlier_than d)) then
    gt <- py_gt value (of_date (later_than d)) ;;
    if negb gt then
      Ok (Some (ValidateError
        ("should be later than " ++ later_than_f) []))
    else _InputField.validate self value
  else if obj_truthy (later_than d) && obj_truthy (earlier_than d) then
    lo <- py_lt (of_date (later_than d)) value ;;
    between <- (if lo then py_lt value (of_date (earlier_than d))
                else Ok false) ;;
    if negb between then
      Ok (Some (ValidateError
        ("should be later than " ++ later_than_f
         ++ " and earlier than " ++ earlier_than_f) []))
    else _InputField.validate self value
  else _InputField.validate self value.

Definition _formatted_input (d : date_attrs) (self : field)
    : result string :=
  let label :=
    format_str (label self) BOLD ++ " - " ++ format_string ++ " " in
  if str_truthy (hint self) then
    Ok (label ++ "(" ++ py_str (of_str (hint self)) ++ "): ")
  else if obj_truthy (earlier_than d) && negb (obj_truthy (later_than d)) then
    e <- strftime_of (earlier_than d) ;;
    Ok (label ++ "(< " ++ e ++ "): ")
  else if obj_truthy (later_than d) && negb (obj_truthy (earlier_than d)) then
    e <- strftime_of (earlier_than d) ;;
    Ok (label ++ "(> " ++ e ++ "): ")
  else if obj_truthy (later_than d) && obj_truthy (earlier_than d) then
    l <- strftime_of (later_than d) ;;
    e <- strftime_of (earlier_than d) ;;
    Ok (label ++ "(" ++ l ++ " " ++ "< n < " ++ e ++ "): ")
  else
    Ok (label ++ ": ").

Definition _convert_type (self : field) (value : pyval) : result pyval :=
  match strptime_ value format_string with
  | Ok value => Ok value
  | Raise e =>
      if is_ValueError_or_TypeError e then
        Raise (ValidateError "can't parse datetime from string"
                 [value; VStr format_string])
      else Raise e
  end.

End Methods.
End DateField.

(** *** Method resolution

    [self.m(...)] runs the method [m] of the class of [self]. *)
Section MethodResolution.
Context {B : Builtins}.

Definition _convert_type (self : field) (value : pyval) : result pyval :=
  match cls self with
  | C_DateField _ => DateField._convert_type self value
  | _ => _InputField._convert_type self value
  end.

Definition validate (self : field) (value : pyval) : result (option exn) :=
  match cls self with
  | C_InputField => _InputField.validate self value
  | C_IntegerField n | C_FloatField n _ => _NumericField.validate n self value
  | C_StringField m | C_HashedField m => StringField.validate m self value
  | C_EmailField m => EmailField.validate m self value
  | C_PhoneNumberField m => PhoneNumberField.validate m self value
  | C_DateField d => DateField.validate d self value
  end.

Definition _formatted_input (self : field) : result string :=
  match cls self with
  | C_InputField => _InputField._formatted_input self
  | C_IntegerField n | C_FloatField n _ =>
      _NumericField._formatted_input n self
  | C_StringField m | C_HashedField m | C_EmailField m
  | C_PhoneNumberField m => StringField._formatted_input m self
  | C_DateField d => DateField._formatted_input d self
  end.

(** Reading the [value] property. *)
Definition value (self : field) : result pyval :=
  match cls self with
  | C_FloatField _ mantissa => FloatField.value mantissa self
  | C_HashedField _ => HashedField.value self
  | _ => _Field.value self
  end.

(** Assigning to the [value] property ([_InputField.value.setter]): the
    outcome of the assignment and the object afterwards. *)
Definition value_setter (self : field) (value : pyval)
    : result unit * field :=
  match _convert_type self value with
  | Raise e => (Raise e, self)
  | Ok value =>
      match validate self value with
      | Raise e => (Raise e, self)
      | Ok None => (Ok tt, set__value self value)
      | Ok (Some e) => (Raise e, self)
      end
  end.

(** [_InputField.render], on the lines [lines] still to be typed and the
    trace [out] written so far.  One iteration computes the prompt, reads a
    line with [input] ([EOFError] when none is left) and assigns it to
    [value]; only a [ValidateError] is caught, printed and followed by
    another iteration. *)
Fixpoint render_loop (self : field) (lines : list string)
    (out : list event) : result unit * field * world :=
  match _formatted_input self with
  | Raise e => (Raise e, self, mkWorld lines out)
  | Ok prompt =>
      match lines with
      | [] => (Raise EOFError, self, mkWorld [] (append out (Prompted prompt)))
      | v :: lines =>
          let out := append out (Prompted prompt) in
          match value_setter self (VStr v) with
          | (Ok _, self) => (Ok tt, self, mkWorld lines out)
          | (Raise (ValidateError text args), self) =>
              render_loop self lines
                (append out (Printed (format_str (exn_str text args) RED)))
          | (Raise e, self) => (Raise e, self, mkWorld lines out)
          end
      end
  end.

Definition render (self : field) (w : world) : result unit * field * world :=
  render_loop self (stdin w) (stdout w).

End MethodResolution.

(** *** OutputField *)

(** An attribute that may never have been assigned. *)
Inductive attr (A : Type) :=
| Unset
| Attr (a : A).
Arguments Unset {A}.
Arguments Attr {A} a.

(** [self.name] on an attribute that may be unset. *)
Definition getattr {A} (a : attr A) : result A :=
  match a with
  | Attr x => Ok x
  | Unset => Raise AttributeError
  end.

(** [OutputField] has no constructor of its own: [label] is only
    annotated, and exists once it has been assigned. *)
Record output_field := mkOutput {
  o_label : attr (option string);
  o_value : pyval }.

Module OutputField.
Section Methods.
Context {B : Builtins}.

Definition value (self : output_field) : result pyval := Ok (o_value self).

Definition render (self : output_field) : result string :=
  label <- getattr (o_label self) ;;
  v <- value self ;;
  if str_truthy label then
    Ok (py_str (of_str label) ++ ": " ++ py_str v)
  else
    Ok (py_str v).

End Methods.
End OutputField.

(** ** forms.py *)

(** An instance of [_Field]. *)
Inductive any_field :=
| Input (f : field)
| Output (o : output_field).

(** The objects a form refers to, by identity: attributes that name the
    same field share one object. *)
Definition heap := list any_field.

Fixpoint heap_set (h : heap) (i : nat) (x : any_field) : heap :=
  match h, i with
  | [], _ => []
  | _ :: h, O => x :: h
  | y :: h, S i => y :: heap_set h i x
  end.

(** What an attribute of a form holds: a reference to an object, or some
    other value. *)
Inductive attr_value :=
| Ref (i : nat)
| Other (v : pyval).

(** A form: [form_name] and the attributes [__dir__()] lists, in its
    order.  [form_name] is only annotated in [Form]: it exists once a
    subclass or the caller assigns it. *)
Record form := mkForm {
  form_name : attr (option string);
  attrs : list (string * attr_value) }.

(** A dictionary with string keys, in insertion order. *)
Definition dict := list (string * pyval).

Fixpoint dict_set (d : dict) (k : string) (v : pyval) : dict :=
  match d with
  | [] => [(k, v)]
  | (k', v') :: d =>
      if String.eqb k k' then (k, v) :: d else (k', v') :: dict_set d k v
  end.

Fixpoint dict_get (d : dict) (k : string) : option pyval :=
  match d with
  | [] => None
  | (k', v) :: d => if String.eqb k k' then Some v else dict_get d k
  end.

Module Form.
Section Methods.
Context {B : Builtins}.

(** [__get_fields]: the attributes whose value is a [_Field] instance,
    with the identity of that instance. *)
Fixpoint __get_fields (h : heap) (attrs : list (string * attr_value))
    : list (string * nat) :=
  match attrs with
  | [] => []
  | (a, Ref i) :: attrs =>
      match nth_error h i with
      | Some _ => (a, i) :: __get_fields h attrs
      | None => __get_fields h attrs
      end
  | (a, Other _) :: attrs => __get_fields h attrs
  end.

Definition show_name (self : form) (w : world) : result unit * world :=
  match getattr (form_name self) with
  | Raise e => (Raise e, w)
  | Ok name =>
      if str_truthy name then
        (Ok tt,
         mkWorld (stdin w)
           (append (stdout w)
              (Printed ("==========" ++ str_upper (py_str (of_str name))
                        ++ "=========="))))
      else (Ok tt, w)
  end.

(** [field.render()] followed by [field.value], on the object [i]. *)
Definition render_field (h : heap) (i : nat) (w : world)
    : result pyval * heap * world :=
  match nth_error h i with
  | Some (Input f) =>
      match render f w with
      | (Ok _, f, w) =>
          (value f, heap_set h i (Input f), w)
      | (Raise e, f, w) => (Raise e, heap_set h i (Input f), w)
      end
  | Some (Output o) =>
      match OutputField.render o with
      | Ok _ => (OutputField.value o, h, w)
      | Raise e => (Raise e, h, w)
      end
  | None => (Raise AttributeError, h, w)
  end.

(** The loop of [show] over the fields still to be rendered. *)
Fixpoint show_loop (fields : list (string * nat)) (res : dict) (h : heap)
    (w : world) : result dict * heap * world :=
  match fields with
  | [] => (Ok res, h, w)
  | (field_name, i) :: fields =>
      match render_field h i w with
      | (Ok v, h, w) => show_loop fields (dict_set res field_name v) h w
      | (Raise e, h, w) => (Raise e, h, w)
      end
  end.

Definition show (self : form) (h : heap) (w : world)
    : result dict * heap * world :=
  let res : dict := [] in
  match show_name self w with
  | (Raise e, w) => (Raise e, h, w)
  | (Ok _, w) => show_loop (__get_fields h (attrs self)) res h w
  end.

(** [field.value] on an element of [_should_match]; an element that is not
    a field has no [value]. *)
Definition field_value (h : heap) (i : nat) : result pyval :=
  match nth_error h i with
  | Some (Input f) => value f
  | Some (Output o) => OutputField.value o
  | None => Raise AttributeError
  end.

(** [all(first.value == field.value for field in fields)]: both values are
    read for each element, and the first difference ends the scan. *)
Fixpoint all_match (h : heap) (first : nat) (fields : list nat)
    : result bool :=
  match fields with
  | [] => Ok true
  | i :: fields =>
      a <- field_value h first ;;
      b <- field_value h i ;;
      if py_eq a b then all_match h first fields else Ok false
  end.

(** [is_valid], given the attribute [_should_match] of the form ([Unset]
    when it was never assigned) as the identities of its fields.
    [_should_match[0]] is read once per element, so never on an empty
    tuple. *)
Definition is_valid (_should_match : attr (list nat)) (h : heap)
    : result bool :=
  match _should_match with
  | Attr fields =>
      all <- all_match h (hd 0%nat fields) fields ;;
      if negb all then Ok false else Ok true
  | Unset => Ok true
  end.

End Methods.
End Form.

(** ** A small implementation of the builtins

    Enough to run the fields on plain decimal numbers, printable text and
    dates written [dd.mm.yyyy]; it is used to evaluate the fields on
    concrete inputs.  Regular expressions and rounding are not
    implemented: [re_fullmatch] never matches and [round] returns its
    argument, and no evaluation below goes through them. *)
Module Plain.

Definition str_of_Z (z : Z) : string := NilZero.string_of_int (Z.to_int z).

Definition Z_of_str (s : string) : option Z :=
  option_map Z.of_int (NilZero.int_of_string s).

(** Floats written as decimal integers below [2^53]. *)
Definition float_of_str (s : string) : option float :=
  match Z_of_str s with
  | Some z =>
      if Z.abs z <? 2 ^ 53 then
        let f := PrimFloat.of_uint63 (Uint63.of_Z (Z.abs z)) in
        Some (if z <? 0 then PrimFloat.opp f else f)
      else None
  | None => None
  end.

(** The fields of [s] between the separator [c]. *)
Fixpoint split (c : ascii) (s : string) : list string :=
  match s with
  | EmptyString => [EmptyString]
  | String a s =>
      if Ascii.eqb a c then EmptyString :: split c s
      else match split c s with
           | [] => [String a EmptyString]
           | w :: ws => String a w :: ws
           end
  end.

Definition pad (width : nat) (s : string) : string :=
  String.concat "" (repeat "0" (width - String.length s)%nat) ++ s.

(** [%d.%m.%Y] on days that every month has. *)
Definition date_of_str (s fmt : string) : option datetime :=
  match split "."%char s with
  | [d; m; y] =>
      match Z_of_str d, Z_of_str m, Z_of_str y with
      | Some d, Some m, Some y =>
          if (1 <=? d) && (d <=? 28) && (1 <=? m) && (m <=? 12)
             && (1 <=? y) && (y <=? 9999) then
            Some (mkDatetime y m d 0 0 0 0)
          else None
      | _, _, _ => None
      end
  | _ => None
  end.

Definition str_of_date (d : datetime) (fmt : string) : string :=
  pad 2 (str_of_Z (day d)) ++ "." ++ pad 2 (str_of_Z (month d)) ++ "."
  ++ pad 4 (str_of_Z (year d)).

Definition upper_char (a : ascii) : ascii :=
  let n := nat_of_ascii a in
  if (97 <=? n)%nat && (n <=? 122)%nat then ascii_of_nat (n - 32) else a.

Fixpoint upper (s : string) : string :=
  match s with
  | EmptyString => EmptyString
  | String a s => String (upper_char a) (upper s)
  end.

Definition backslash : ascii := ascii_of_nat 92.
Definition double_quote : ascii := ascii_of_nat 34.

Fixpoint contains (c : ascii) (s : string) : bool :=
  match s with
  | EmptyString => false
  | String a s => Ascii.eqb a c || contains c s
  end.

(** [s] with a backslash before every backslash and every [quote]. *)
Fixpoint escape (quote : ascii) (s : string) : string :=
  match s with
  | EmptyString => EmptyString
  | String a s =>
      if Ascii.eqb a backslash || Ascii.eqb a quote
      then String backslash (String a (escape quote s))
      else String a (escape quote s)
  end.

(** [repr] of a printable text: in single quotes, unless the text has a
    single quote and no double quote. *)
Definition repr_str (s : string) : string :=
  if contains "'"%char s && negb (contains double_quote s) then
    String double_quote (escape double_quote s)
    ++ String double_quote EmptyString
  else
    "'" ++ escape "'"%char s ++ "'".

Definition repr (v : pyval) : string :=
  match v with
  | VNone => "None"
  | VNum (PyInt z) => str_of_Z z
  | VNum (PyFloat f) =>
      match Prim2SF f with
      | S754_zero _ => "0.0"
      | _ => "<float>"
      end
  | VStr s => repr_str s
  | VDate d => str_of_date d "%d.%m.%Y"
  | VType T_str => "<class 'str'>"
  | VType T_int => "<class 'int'>"
  | VType T_float => "<class 'float'>"
  | VType T_datetime => "<class 'datetime.datetime'>"
  | VType T_NoneType => "<class 'NoneType'>"
  | VType T_type => "<class 'type'>"
  end.

Definition str (v : pyval) : string :=
  match v with
  | VStr s => s
  | _ => repr v
  end.

(** Each [{}] of the template replaced by the next argument. *)
Fixpoint format (template : string) (args : list pyval) : string :=
  match template with
  | String "{" (String "}" rest) =>
      match args with
      | a :: args => str a ++ format rest args
      | [] => format rest []
      end
  | String a rest => String a (format rest args)
  | EmptyString => EmptyString
  end.

(** The text up to the first [}], and what follows it. *)
Fixpoint until_close (s : string) : option (string * string) :=
  match s with
  | EmptyString => None
  | String "}" rest => Some (EmptyString, rest)
  | String a rest =>
      match until_close rest with
      | Some (name, rest) => Some (String a name, rest)
      | None => None
      end
  end.

Definition cons_text (text : string) (r : string + format_error)
    : string + format_error :=
  match r with
  | inl rest => inl (text ++ rest)
  | inr e => inr e
  end.

(** [str.format] called with positional arguments only, on the templates
    whose braces are [{}], [{{], [}}], a placeholder that holds the name
    of a keyword (which the call does not pass), or form no placeholder. *)
Fixpoint format_any (fuel : nat) (template : string) (args : list pyval)
    : string + format_error :=
  match fuel with
  | O => inl EmptyString
  | S fuel =>
      match template with
      | EmptyString => inl EmptyString
      | String "{" (String "{" rest) =>
          cons_text "{" (format_any fuel rest args)
      | String "}" (String "}" rest) =>
          cons_text "}" (format_any fuel rest args)
      | String "}" _ =>
          inr (FormatValueError "Single '}' encountered in format string")
      | String "{" EmptyString =>
          inr (FormatValueError "Single '{' encountered in format string")
      | String "{" rest =>
          match until_close rest with
          | None =>
              inr (FormatValueError "expected '}' before end of string")
          | Some (EmptyString, rest) =>
              match args with
              | a :: args => cons_text (str a) (format_any fuel rest args)
              | [] => inr FormatIndexError
              end
          | Some (name, _) => inr (FormatKeyError name)
          end
      | String a rest => cons_text (String a EmptyString) (format_any fuel rest args)
      end
  end.

Definition format_checked (template : string) (args : list pyval)
    : string + format_error :=
  format_any (S (String.length template)) template args.

Definition str_of_exn (text : string) (args : list pyval) : string :=
  match args with
  | [] => text
  | _ => "(" ++ String.concat ", " (map repr (VStr text :: args)) ++ ")"
  end.

Definition hash (v : pyval) : Z :=
  match v with
  | VStr s =>
      fold_left (fun h a => (h * 31 + Z.of_nat (nat_of_ascii a)) mod 2 ^ 61)
        (list_ascii_of_string s) 7
  | _ => 0
  end.

#[export] Instance builtins : Builtins := {|
  py_int := Z_of_str;
  py_float := float_of_str;
  strptime := date_of_str;
  strftime := str_of_date;
  re_fullmatch := fun _ _ => false;
  py_hash := hash;
  py_round := fun x _ => x;
  py_repr := repr;
  py_format := format;
  str_format := format_checked;
  exn_str := str_of_exn;
  str_upper := upper;
  format_str := fun s _ => s |}.

End Plain.

(** ** Vocabulary of the statements *)

(** The bounds of a numeric field; [None] for the other classes. *)
Definition bounds_of (c : field_class) : option numeric_attrs :=
  match c with
  | C_IntegerField n | C_FloatField n _ => Some n
  | _ => None
  end.

Section Vocabulary.
Context {B : Builtins}.

(** The value a raw input is converted to, when it passes conversion and
    validation. *)
Definition accepted_value (self : field) (raw : pyval) : option pyval :=
  match _convert_type self raw with
  | Ok v =>
      match validate self v with
      | Ok None => Some v
      | _ => None
      end
  | Raise _ => None
  end.

(** The same for a line of text, as [render] reads them. *)
Definition accepted (self : field) (raw : string) : option pyval :=
  accepted_value self (VStr raw).

(** A float that is an infinity; an int that rounds beyond the largest
    float. *)
Definition is_infinite (f : float) : bool :=
  match Prim2SF f with
  | S754_infinity _ => true
  | _ => false
  end.

Definition exceeds_float (z : Z) : bool :=
  match binary_normalize prec emax z 0 false with
  | S754_infinity _ => true
  | _ => false
  end.

(** The raw input is a number that the [value_type] of the field cannot
    hold: an infinite float for [int], an int beyond the largest float for
    [float]. *)
Definition conversion_overflows (self : field) (raw : pyval) : bool :=
  match value_type (cls self), raw with
  | T_int, VNum (PyFloat f) => is_infinite f
  | T_float, VNum (PyInt z) => exceeds_float z
  | _, _ => false
  end.




(** The line [render] prints when the assignment of the line [raw] raises
    a [ValidateError]. *)
Definition rejection (self : field) (raw : string) : option string :=
  match value_setter self (VStr raw) with
  | (Raise (ValidateError text args), _) =>
      Some (format_str (exn_str text args) RED)
  | _ => None
  end.

(** What [render] writes for the rejected inputs [bad]: the prompt, then
    the message of the rejection. *)
Definition retries (self : field) (prompt : string) (bad : list string)
    : list event :=
  flat_map
    (fun raw =>
       Prompted prompt ::
       match rejection self raw with
       | Some line => [Printed line]
       | None => []
       end)
    bad.

(** The text [s] is within [max_length]: no limit is set ([None] or 0), or
    [s] is no longer than the limit. *)
Definition fits (max_length : option Z) (s : string) : Prop :=
  match max_length with
  | Some m => m = 0 \/ py_len s <= m
  | None => True
  end.

(** [show] working through [fields]: each field is rendered and its
    [value] read, in order, from the objects and the terminal the one
    before left; [entries] are the names with the values read. *)
Inductive renders : heap -> world -> list (string * nat) ->
    list (string * pyval) -> heap -> world -> Prop :=
| renders_nil (h : heap) (w : world) : renders h w [] [] h w
| renders_cons (h h1 h' : heap) (w w1 w' : world) (name : string) (i : nat)
    (v : pyval) (fields : list (string * nat))
    (entries : list (string * pyval)) :
    Form.render_field h i w = (Ok v, h1, w1) ->
    renders h1 w1 fields entries h' w' ->
    renders h w ((name, i) :: fields) ((name, v) :: entries) h' w'.

End Vocabulary.

(** ** Concrete fields and forms *)

Module Examples.

(** [IntegerField("Age", min_value=0, max_value=120)] once constructed. *)
Definition age : field :=
  {| cls := C_IntegerField
              {| min_value := Some (PyInt 0); max_value := Some (PyInt 120) |};
     label := "Age"; hint := None; _value := VNone |}.

(** A numeric field whose attributes were set to the given bounds. *)
Definition bounded (min_value max_value : option pynum) : field :=
  {| cls := C_IntegerField
              {| min_value := min_value; max_value := max_value |};
     label := "n"; hint := None; _value := VNone |}.

(** [StringField("Name")] *)
Definition name : field :=
  StringField.__init__ C_StringField "Name" None (Some _DEFAULT_MAX_LENGTH).

(** [HashedField("Password")] *)
Definition password : field :=
  StringField.__init__ C_HashedField "Password" None
    (Some _DEFAULT_MAX_LENGTH).

Definition date (y m d : Z) : datetime := mkDatetime y m d 0 0 0 0.

(** [DateField("Day", earlier_than=2020-01-01, later_than=2019-01-01)]
    once constructed. *)
Definition in_2019 : field :=
  {| cls := C_DateField
              {| earlier_than := Some (date 2020 1 1);
                 later_than := Some (date 2019 1 1) |};
     label := "Day"; hint := None; _value := VNone |}.

(** A form with the fields [name] and [age], and the objects they refer
    to. *)
Definition signup (form_name : attr (option string)) : form :=
  {| form_name := form_name;
     attrs := [("name", Ref 0%nat); ("age", Ref 1%nat)] |}.

Definition signup_heap : heap := [Input name; Input age].

(** [HashedField("Confirm")] *)
Definition confirm : field :=
  StringField.__init__ C_HashedField "Confirm" None
    (Some _DEFAULT_MAX_LENGTH).

(** [EmailField("Email", max_length=5)] *)
Definition email : field :=
  StringField.__init__ C_EmailField "Email" None (Some 5).

(** [FloatField("Price", max_value=100, min_value=1)] once constructed. *)
Definition price : field :=
  {| cls := C_FloatField
              {| min_value := Some (PyInt 1); max_value := Some (PyInt 100) |}
              2;
     label := "Price"; hint := None; _value := VNone |}.

(** [DateField("Day", earlier_than=2020-01-01)] and
    [DateField("Day", later_than=2019-01-01)]. *)
Definition before_2020 : field :=
  {| cls := C_DateField
              {| earlier_than := Some (date 2020 1 1); later_than := None |};
     label := "Day"; hint := None; _value := VNone |}.


(** [IntegerField("Age", min_value=1, max_value=120, hint="years")] once
    constructed. *)
Definition age_hinted : field :=
  {| cls := C_IntegerField
              {| min_value := Some (PyInt 1); max_value := Some (PyInt 120) |};
     label := "Age"; hint := Some "years"; _value := VNone |}.

(** [StringField("TestField")] with [max_length] set to 1. *)
Definition one_char : field :=
  StringField.__init__ C_StringField "TestField" None (Some 1).

(** The letter e with an acute accent: one character, two bytes. *)
Definition e_acute : string :=
  String (ascii_of_nat 195) (String (ascii_of_nat 169) EmptyString).

(** [IntegerField("{x}", max_value=9, min_value=1)] once constructed. *)
Definition braces : field :=
  {| cls := C_IntegerField
              {| min_value := Some (PyInt 1); max_value := Some (PyInt 9) |};
     label := "{x}"; hint := None; _value := VNone |}.

(** The objects of [signup] once [Alice] and [30] were typed, and what
    the terminal shows then. *)
Definition signup_done : heap :=
  [Input (set__value name (VStr "Alice"));
   Input (set__value age (VNum (PyInt 30)))].


(** Two hashed fields holding the texts [p] and [c]. *)
Definition passwords (p c : string) : heap :=
  [Input (set__value password (VStr p)); Input (set__value confirm (VStr c))].


End Examples.

(** * Properties *)

(** ** Numbers *)

Lemma num_gt_lt (a b : pynum) : num_gt a b = num_lt b a.
Proof.
  destruct a as [x|x], b as [y|y]; simpl; try reflexivity.
  apply Z.gtb_ltb.
Qed.

Lemma Prim2SF_zero : Prim2SF 0%float = S754_zero false.
Proof. reflexivity. Qed.

Lemma finite_value_pos (m : positive) (e : Z) : 0 <= e -> 0 < Z.pos m * 2 ^ e.
Proof.
  intros He. apply Z.mul_pos_pos; [lia | apply Z.pow_pos_nonneg; lia].
Qed.

(** An [int] zero compared with a float: the float's sign decides. *)
Lemma cmp_zero_float (f : float) :
  cmp_Z_float 0 f =
  match Prim2SF f with
  | S754_nan => None
  | S754_infinity s | S754_finite s _ _ => Some (if s then Gt else Lt)
  | S754_zero _ => Some Eq
  end.
Proof.
  unfold cmp_Z_float. destruct (Prim2SF f) as [s|s| |s m e]; try reflexivity.
  destruct (0 <=? e) eqn:He.
  - apply Z.leb_le in He. pose proof (finite_value_pos m e He) as Hp.
    destruct s; f_equal.
    + apply Z.compare_gt_iff.
      replace (Z.neg m * 2 ^ e) with (- (Z.pos m * 2 ^ e)) by (rewrite <- Pos2Z.opp_pos; ring).
      lia.
    + apply Z.compare_lt_iff. exact Hp.
  - destruct s; reflexivity.
Qed.

(** A number equal to zero is false. *)
Lemma zero_not_truthy (n : pynum) :
  num_eq n (PyInt 0) = true -> num_truthy n = false.
Proof.
  destruct n as [z|f]; simpl.
  - intros ->. reflexivity.
  - rewrite cmp_zero_float, eqb_spec, Prim2SF_zero.
    destruct (Prim2SF f) as [s|s| |s m e]; try discriminate;
      try (destruct s; discriminate).
    reflexivity.
Qed.

(** A number above zero is true. *)
Lemma positive_truthy (n : pynum) :
  num_gt n (PyInt 0) = true -> num_truthy n = true.
Proof.
  destruct n as [z|f]; simpl.
  - intros H. apply Z.gtb_lt in H. destruct (Z.eqb_spec z 0); [lia | reflexivity].
  - rewrite cmp_zero_float, eqb_spec, Prim2SF_zero.
    destruct (Prim2SF f) as [s|s| |s m e]; try discriminate;
      destruct s; try discriminate; reflexivity.
Qed.

(** Zero is not above a number that is above zero. *)
Lemma zero_not_gt_positive (z n : pynum) :
  num_eq z (PyInt 0) = true -> num_gt n (PyInt 0) = true ->
  num_gt z n = false.
Proof.
  destruct z as [z|g], n as [x|f]; simpl.
  - intros Hz Hx. apply Z.eqb_eq in Hz. apply Z.gtb_lt in Hx. subst z.
    destruct (Z.gtb_spec 0 x); [lia | reflexivity].
  - intros Hz. apply Z.eqb_eq in Hz. subst z.
    destruct (cmp_Z_float 0 f) as [[ | | ]|]; simpl; congruence.
  - rewrite cmp_zero_float. intros Hg Hx. apply Z.gtb_lt in Hx.
    unfold cmp_Z_float.
    destruct (Prim2SF g) as [s|s| |s m e]; try discriminate;
      try (destruct s; discriminate).
    simpl. destruct (Z.compare_spec x 0); first [lia | reflexivity].
  - rewrite !cmp_zero_float, ltb_spec.
    destruct (Prim2SF g) as [s|s| |s m e]; try discriminate;
      try (destruct s; discriminate).
    destruct (Prim2SF f) as [s'|s'| |s' m' e']; try discriminate;
      destruct s'; try discriminate; reflexivity.
Qed.

(** ** Numeric fields *)

Section NumericFields.
Context {B : Builtins}.

Lemma validate_numeric (self : field) (n : numeric_attrs) (value : pyval) :
  bounds_of (cls self) = Some n ->
  validate self value = _NumericField.validate n self value.
Proof.
  unfold validate. destruct (cls self); simpl; intros H; inversion H; reflexivity.
Qed.

(** The branch taken when only [min_value] is true. *)
Lemma validate_min_branch (n : numeric_attrs) (self : field) (m v : pynum) :
  min_value n = Some m -> num_truthy m = true -> truthy (max_value n) = false ->
  _NumericField.validate n self (VNum v) =
  if num_lt m v then Ok None
  else Ok (Some (ValidateError
         (py_format "min_value = {}, input = {}" [VNum m; VNum v]) [])).
Proof.
  intros Hm Ht HM. unfold _NumericField.validate.
  rewrite Hm, HM. simpl. rewrite Ht. simpl.
  destruct (num_lt m v); reflexivity.
Qed.

(** The branch taken when only [max_value] is true. *)
Lemma validate_max_branch (n : numeric_attrs) (self : field) (M v : pynum) :
  truthy (min_value n) = false -> max_value n = Some M -> num_truthy M = true ->
  _NumericField.validate n self (VNum v) =
  if num_lt v M then Ok None
  else Ok (Some (ValidateError
         (py_format "max_value = {}, input = {}" [VNum M; VNum v]) [])).
Proof.
  intros Hm HM Ht. unfold _NumericField.validate.
  rewrite Hm, HM. simpl. rewrite Ht. simpl. rewrite num_gt_lt.
  destruct (num_lt v M); reflexivity.
Qed.

(** The branch taken when both bounds are true. *)
Lemma validate_both_branch (n : numeric_attrs) (self : field) (m M v : pynum) :
  min_value n = Some m -> max_value n = Some M ->
  num_truthy m = true -> num_truthy M = true ->
  _NumericField.validate n self (VNum v) =
  if num_lt m v && num_lt v M then Ok None
  else Ok (Some (ValidateError
         (py_format "{} < {} < {} != True" [VNum m; VNum v; VNum M]) [])).
Proof.
  intros Hm HM Htm HtM. unfold _NumericField.validate.
  rewrite Hm, HM. simpl. rewrite Htm, HtM. simpl.
  destruct (num_lt m v); simpl; [destruct (num_lt v M) |]; reflexivity.
Qed.

(** No branch is taken when neither bound is true. *)
Lemma validate_no_branch (n : numeric_attrs) (self : field) (value : pyval) :
  truthy (min_value n) = false -> truthy (max_value n) = false ->
  _NumericField.validate n self value = Ok None.
Proof.
  intros Hm HM. unfold _NumericField.validate. rewrite Hm, HM. reflexivity.
Qed.

Lemma if_accepts (b : bool) (e : exn) :
  (if b then Ok None else Ok (Some e)) = Ok None <-> b = true.
Proof. destruct b; split; congruence. Qed.

(** C1 (the code departs from the claim): construction of a numeric field
    does not succeed when a bound is left out.  [__init__] compares
    [min_value > max_value] before anything else, and the comparison raises
    [TypeError] as soon as one side is [None]: with neither bound, with only
    [min_value], and with only [max_value], for [IntegerField] and
    [FloatField] alike. *)
Theorem numeric_init_without_both_bounds
    (label : string) (hint : option string) (mantissa : Z) (m : pynum) :
  IntegerField.__init__ label None None hint = Raise TypeError /\
  IntegerField.__init__ label None (Some m) hint = Raise TypeError /\
  IntegerField.__init__ label (Some m) None hint = Raise TypeError /\
  FloatField.__init__ label mantissa None None hint = Raise TypeError /\
  FloatField.__init__ label mantissa None (Some m) hint = Raise TypeError /\
  FloatField.__init__ label mantissa (Some m) None hint = Raise TypeError.
Proof. repeat split. Qed.

(** C3, as amended: for every numeric field whose bounds, where given, are
    not zero: with only [min_value] set a value [v] is accepted iff
    [v > min_value]; with only [max_value] set, iff [v < max_value]; with
    both set, iff [min_value < v < max_value] strictly; with neither set
    every value is accepted. *)
Theorem numeric_validate_nonzero_bounds
    (self : field) (n : numeric_attrs) (v : pynum) :
  bounds_of (cls self) = Some n ->
  (forall m, min_value n = Some m -> max_value n = None ->
     num_truthy m = true ->
     (validate self (VNum v) = Ok None <-> num_gt v m = true)) /\
  (forall M, min_value n = None -> max_value n = Some M ->
     num_truthy M = true ->
     (validate self (VNum v) = Ok None <-> num_lt v M = true)) /\
  (forall m M, min_value n = Some m -> max_value n = Some M ->
     num_truthy m = true -> num_truthy M = true ->
     (validate self (VNum v) = Ok None <->
      num_lt m v = true /\ num_lt v M = true)) /\
  (min_value n = None -> max_value n = None ->
     validate self (VNum v) = Ok None).
Proof.
  intros Hn. rewrite (validate_numeric self n _ Hn).
  split; [| split; [| split]].
  - intros m Hm HM Ht.
    rewrite (validate_min_branch n self m v Hm Ht), num_gt_lt
      by (rewrite HM; reflexivity).
    apply if_accepts.
  - intros M Hm HM Ht.
    rewrite (validate_max_branch n self M v) by (try rewrite Hm; auto).
    apply if_accepts.
  - intros m M Hm HM Htm HtM.
    rewrite (validate_both_branch n self m M v Hm HM Htm HtM).
    rewrite if_accepts. apply andb_true_iff.
  - intros Hm HM.
    apply validate_no_branch; [rewrite Hm | rewrite HM]; reflexivity.
Qed.

(** C5: when both bounds are given and [min_value > max_value],
    construction succeeds, [min_value] becomes [max_value - 2] (an [int]
    two below an [int] bound, the float difference for a [float] bound) and
    [max_value] is kept, for an [IntegerField] and a [FloatField] alike. *)
Theorem numeric_init_repairs_min
    (label : string) (hint : option string) (mantissa : Z) (mn mx : pynum) :
  num_gt mn mx = true ->
  IntegerField.__init__ label (Some mx) (Some mn) hint =
    Ok {| cls := C_IntegerField
                   {| min_value :=
                        Some (match mx with
                              | PyInt z => PyInt (z - 2)
                              | PyFloat f => PyFloat (PrimFloat.sub f 2%float)
                              end);
                      max_value := Some mx |};
          label := label; hint := hint; _value := VNone |} /\
  FloatField.__init__ label mantissa (Some mx) (Some mn) hint =
    Ok {| cls := C_FloatField
                   {| min_value :=
                        Some (match mx with
                              | PyInt z => PyInt (z - 2)
                              | PyFloat f => PyFloat (PrimFloat.sub f 2%float)
                              end);
                      max_value := Some mx |}
                   mantissa;
          label := label; hint := hint; _value := VNone |}.
Proof.
  intros Hgt.
  unfold IntegerField.__init__, FloatField.__init__, _NumericField.__init__.
  simpl. rewrite Hgt. destruct mx; split; reflexivity.
Qed.

End NumericFields.

Section ZeroMin.
Context {B : Builtins}.

(** C4, as amended: a numeric field constructed with [min_value] equal to 0
    and a [max_value] above 0 keeps both bounds and validates through the
    max-only branch: a value [v] is accepted iff [v < max_value], no lower
    bound is checked, and a rejected value gets the max-only message. *)
Theorem zero_min_takes_max_branch
    (label : string) (hint : option string) (mantissa : Z) (mn mx : pynum) :
  num_eq mn (PyInt 0) = true -> num_gt mx (PyInt 0) = true ->
  exists i f,
    IntegerField.__init__ label (Some mx) (Some mn) hint = Ok i /\
    FloatField.__init__ label mantissa (Some mx) (Some mn) hint = Ok f /\
    forall self v, self = i \/ self = f ->
      bounds_of (cls self) =
        Some {| min_value := Some mn; max_value := Some mx |} /\
      (validate self (VNum v) = Ok None <-> num_lt v mx = true) /\
      (num_lt v mx = false ->
       validate self (VNum v) =
       Ok (Some (ValidateError
         (py_format "max_value = {}, input = {}" [VNum mx; VNum v]) []))).
Proof.
  intros Hzero Hpos.
  pose proof (zero_not_gt_positive mn mx Hzero Hpos) as Hgt.
  pose proof (zero_not_truthy mn Hzero) as Hmn.
  pose proof (positive_truthy mx Hpos) as Hmx.
  unfold IntegerField.__init__, FloatField.__init__, _NumericField.__init__.
  simpl. rewrite Hgt. simpl.
  eexists. eexists. split; [reflexivity |]. split; [reflexivity |].
  intros self v Hself.
  set (n := {| min_value := Some mn; max_value := Some mx |}).
  assert (Hb : bounds_of (cls self) = Some n)
    by (destruct Hself as [-> | ->]; reflexivity).
  split; [exact Hb |].
  rewrite (validate_numeric self n _ Hb).
  rewrite (validate_max_branch n self mx v) by (simpl; auto).
  split; [apply if_accepts |].
  intros ->. reflexivity.
Qed.

End ZeroMin.

(** ** The [value] property *)

Section ValueProperty.
Context {B : Builtins}.

Ltac unfold_methods :=
  unfold validate, _convert_type, _formatted_input,
    _NumericField.validate, StringField.validate, EmailField.validate,
    PhoneNumberField.validate, DateField.validate, _InputField.validate,
    DateField._convert_type, _InputField._convert_type,
    DateField.strftime_of in *.

(** Conversion fails with a [ValidateError], or with the [OverflowError]
    of a number that the type of the field cannot hold. *)
Lemma convert_raises (self : field) (raw : pyval) (e : exn) :
  _convert_type self raw = Raise e ->
  is_ValidateError e = true \/
  (e = OverflowError /\ conversion_overflows self raw = true).
Proof.
  unfold_methods.
  unfold conversion_overflows, is_infinite, exceeds_float, call_type, int_,
    float_, strptime_, int_of_float, float_of_int.
  destruct (cls self); destruct raw as [|[rz|rf]|rs|rd|rt];
    cbn [value_type bind];
    try destruct (py_int rs); try destruct (py_float rs);
    try destruct (strptime rs DateField.format_string);
    try destruct (Prim2SF rf);
    try destruct (binary_normalize prec emax rz 0 false);
    cbn [is_ValueError_or_TypeError bind];
    intros H; inversion H; auto.
Qed.

(** A text never overflows. *)
Lemma text_never_overflows (self : field) (raw : string) :
  conversion_overflows self (VStr raw) = false.
Proof.
  unfold conversion_overflows. destruct (value_type (cls self)); reflexivity.
Qed.

(** What conversion returns, by class: a text, a number or a date. *)
Lemma converted_shape (self : field) (raw v : pyval) :
  _convert_type self raw = Ok v ->
  match value_type (cls self) with
  | T_str => exists s, v = VStr s
  | T_int | T_float => exists n, v = VNum n
  | T_datetime => exists d, v = VDate d
  | _ => False
  end.
Proof.
  unfold_methods.
  unfold call_type, int_, float_, strptime_, int_of_float, float_of_int.
  destruct (cls self); destruct raw as [|[rz|rf]|rs|rd|rt];
    cbn [value_type bind];
    try destruct (py_int rs); try destruct (py_float rs);
    try destruct (strptime rs DateField.format_string);
    try destruct (Prim2SF rf);
    try destruct (binary_normalize prec emax rz 0 false);
    cbn [is_ValueError_or_TypeError bind];
    intros H; inversion H; eauto.
Qed.

(** On a converted value, validation returns: [None], or a
    [ValidateError]. *)
Lemma validate_converted (self : field) (raw v : pyval) :
  _convert_type self raw = Ok v ->
  validate self v = Ok None \/
  exists text args, validate self v = Ok (Some (ValidateError text args)).
Proof.
  intros Hc. apply converted_shape in Hc. revert Hc.
  unfold_methods.
  destruct (cls self) as [|n|n mt|m|m|m|m|d]; simpl;
    intros [x ->];
    try (destruct n as [[mn|] [mx|]]); try (destruct d as [[e|] [l|]]);
    try (destruct m as [m|]); simpl;
    rewrite ?andb_true_r, ?andb_false_r;
    repeat match goal with
           | |- context [if ?b then _ else _] => destruct b; simpl
           end;
    eauto.
Qed.

(** The outcomes of an assignment. *)
Lemma value_setter_cases (self : field) (raw : pyval) :
  (exists v, accepted_value self raw = Some v /\
             _convert_type self raw = Ok v /\ validate self v = Ok None /\
             value_setter self raw = (Ok tt, set__value self v)) \/
  (exists text args, accepted_value self raw = None /\
             value_setter self raw = (Raise (ValidateError text args), self)) \/
  (conversion_overflows self raw = true /\ accepted_value self raw = None /\
   value_setter self raw = (Raise OverflowError, self)).
Proof.
  unfold value_setter, accepted_value.
  destruct (_convert_type self raw) as [v|e] eqn:Hc.
  - destruct (validate_converted self raw v Hc) as [Hv | (text & args & Hv)];
      rewrite Hv; eauto 8.
  - apply convert_raises in Hc. destruct Hc as [He | [-> Ho]].
    + destruct e; try discriminate. eauto 8.
    + auto.
Qed.

(** The two outcomes of the assignment of a text. *)
Lemma value_setter_text (self : field) (raw : string) :
  (exists v, accepted self raw = Some v /\
             _convert_type self (VStr raw) = Ok v /\
             validate self v = Ok None /\
             value_setter self (VStr raw) = (Ok tt, set__value self v)) \/
  (exists text args, accepted self raw = None /\
             value_setter self (VStr raw)
             = (Raise (ValidateError text args), self)).
Proof.
  unfold accepted.
  destruct (value_setter_cases self (VStr raw)) as [H | [H | [Ho _]]]; auto.
  rewrite text_never_overflows in Ho. discriminate.
Qed.







End ValueProperty.

(** ** The render loop *)

Section Render.
Context {B : Builtins}.

(** Computing the prompt never fails with a [ValidateError]. *)
Lemma formatted_input_raises (self : field) (e : exn) :
  _formatted_input self = Raise e -> is_ValidateError e = false.
Proof.
  unfold _formatted_input, _InputField._formatted_input,
    _NumericField._formatted_input, StringField._formatted_input,
    DateField._formatted_input, DateField.strftime_of, format.
  destruct (cls self) as [|n|n mt|m|m|m|m|d];
    try (destruct d as [[ea|] [la|]]); simpl;
    repeat match goal with
           | |- context [if ?b then _ else _] => destruct b; simpl
           end;
    repeat match goal with
           | |- context [match ?x with _ => _ end] => destruct x
           end;
    intros H; inversion H; try reflexivity;
    match goal with f : format_error |- _ => destruct f; reflexivity end.
Qed.

Lemma render_loop_no_ValidateError (lines : list string) :
  forall self out text args,
    fst (fst (render_loop self lines out)) <> Raise (ValidateError text args).
Proof.
  induction lines as [|raw lines IH]; intros self out text args; simpl.
  - destruct (_formatted_input self) as [p|e] eqn:Hp; simpl; [discriminate |].
    apply formatted_input_raises in Hp. intros He. inversion He. subst e.
    discriminate.
  - destruct (_formatted_input self) as [p|e] eqn:Hp; simpl.
    + destruct (value_setter_text self raw)
        as [(v & _ & _ & _ & Hs) | (t & a & _ & Hs)]; rewrite Hs; simpl.
      * discriminate.
      * apply IH.
    + apply formatted_input_raises in Hp. intros He. inversion He. subst e.
      discriminate.
Qed.

Lemma render_loop_returns (lines : list string) :
  forall self out self' w',
    render_loop self lines out = (Ok tt, self', w') ->
    exists bad good prompt v,
      lines = (bad ++ good :: stdin w')%list /\
      _formatted_input self = Ok prompt /\
      Forall (fun raw => exists text args,
                value_setter self (VStr raw)
                = (Raise (ValidateError text args), self))
             bad /\
      _convert_type self (VStr good) = Ok v /\ validate self v = Ok None /\
      self' = set__value self v /\
      stdout w' = (out ++ retries self prompt bad ++ [Prompted prompt])%list.
Proof.
  induction lines as [|raw lines IH]; intros self out self' w'; simpl.
  - destruct (_formatted_input self); intros H; inversion H.
  - destruct (_formatted_input self) as [p|e] eqn:Hp; [| intros H; inversion H].
    destruct (value_setter_text self raw)
      as [(v & _ & Hc & Hv & Hs) | (t & a & _ & Hs)]; rewrite Hs.
    + intros H. inversion H. subst. exists [], raw, p, v. simpl.
      repeat split; auto.
    + intros H. apply IH in H.
      destruct H as (bad & good & p' & v & Hl & Hp' & Hbad & Hc & Hv & Hs' & Ho).
      rewrite Hp in Hp'. inversion Hp'. subst p'.
      exists (raw :: bad), good, p, v. repeat split; auto.
      * simpl. rewrite Hl. reflexivity.
      * constructor; eauto.
      * rewrite Ho. unfold append, retries, rejection. simpl. rewrite Hs.
        rewrite <- !app_assoc. reflexivity.
Qed.

(** Lines whose assignment raises a [ValidateError] are read one after the
    other, each answered with the prompt and its rejection. *)
Lemma render_loop_retries (bad : list string) :
  forall self lines out prompt,
    _formatted_input self = Ok prompt ->
    Forall (fun raw => exists text args,
              value_setter self (VStr raw)
              = (Raise (ValidateError text args), self))
           bad ->
    render_loop self (bad ++ lines) out
    = render_loop self lines (out ++ retries self prompt bad).
Proof.
  induction bad as [|raw bad IH]; intros self lines out prompt Hp Hbad; simpl.
  - rewrite app_nil_r. reflexivity.
  - inversion Hbad as [|? ? (text & args & Hs) Hrest]; subst.
    rewrite Hp, Hs. rewrite (IH self lines _ prompt Hp Hrest).
    unfold append, rejection. rewrite Hs. rewrite <- !app_assoc. reflexivity.
Qed.

(** C7: a [ValidateError] never propagates out of [render]; when the
    assignment of the line read raises one, its message is printed and
    [render] goes on with the next prompt; when the lines waiting are
    rejected ones followed by a line that converts and validates, [render]
    reads up to that line, answers each rejected line with the prompt and
    its message, prompts once more, stores the converted value, keeps every
    other attribute and leaves the lines after it unread; and [render]
    returns only in that way. *)
Theorem render_catches_ValidateError (self : field) (w : world) :
  (forall text args,
     fst (fst (render self w)) <> Raise (ValidateError text args)) /\
  (forall raw lines prompt text args,
     stdin w = raw :: lines ->
     _formatted_input self = Ok prompt ->
     value_setter self (VStr raw) = (Raise (ValidateError text args), self) ->
     render self w =
     render self
       (mkWorld lines
          (stdout w ++ [Prompted prompt;
                        Printed (format_str (exn_str text args) RED)]))) /\
  (forall prompt bad good rest v,
     _formatted_input self = Ok prompt ->
     stdin w = (bad ++ good :: rest)%list ->
     Forall (fun raw => exists text args,
               value_setter self (VStr raw)
               = (Raise (ValidateError text args), self))
            bad ->
     _convert_type self (VStr good) = Ok v -> validate self v = Ok None ->
     render self w =
     (Ok tt,
      {| cls := cls self; label := label self; hint := hint self;
         _value := v |},
      mkWorld rest
        (stdout w ++ retries self prompt bad ++ [Prompted prompt]))) /\
  (forall self' w',
     render self w = (Ok tt, self', w') ->
     exists bad good prompt v,
       stdin w = (bad ++ good :: stdin w')%list /\
       _formatted_input self = Ok prompt /\
       Forall (fun raw => exists text args,
                 value_setter self (VStr raw)
                 = (Raise (ValidateError text args), self))
              bad /\
       _convert_type self (VStr good) = Ok v /\ validate self v = Ok None /\
       self' = {| cls := cls self; label := label self; hint := hint self;
                  _value := v |} /\
       stdout w' = (stdout w ++ retries self prompt bad ++ [Prompted prompt])%list).
Proof.
  unfold render. split; [| split; [| split]].
  - intros text args. apply render_loop_no_ValidateError.
  - intros raw lines prompt text args Hin Hp Hs.
    rewrite Hin. simpl. rewrite Hp, Hs. unfold append.
    rewrite <- app_assoc. reflexivity.
  - intros prompt bad good rest v Hp Hin Hbad Hc Hv. rewrite Hin.
    rewrite (render_loop_retries bad self _ _ prompt Hp Hbad). simpl.
    rewrite Hp. unfold value_setter. rewrite Hc, Hv. unfold append.
    rewrite <- app_assoc. reflexivity.
  - intros self' w'. apply render_loop_returns.
Qed.

End Render.

(** ** Hashed and date fields *)

Section HashedAndDate.
Context {B : Builtins}.

(** C9: once a string [s] is stored in a [HashedField], reading [value]
    returns [hash(s)], an [int], and never a value equal to the string
    [s]. *)
Theorem hashed_value_is_hash
    (self self' : field) (max_length : option Z) (s : string) :
  cls self = C_HashedField max_length ->
  value_setter self (VStr s) = (Ok tt, self') ->
  value self' = Ok (VNum (PyInt (py_hash (VStr s)))) /\
  value self' <> Ok (VStr s) /\
  (forall v, value self' = Ok v -> py_eq v (VStr s) = false).
Proof.
  intros Hcls Hset.
  destruct (value_setter_text self s)
    as [(v & _ & Hc & _ & Hs) | (t & a & _ & Hs)];
    rewrite Hs in Hset; inversion Hset; subst self'; clear Hset.
  unfold _convert_type, _InputField._convert_type in Hc.
  rewrite Hcls in Hc. simpl in Hc. inversion Hc. subst v.
  assert (Hval : value (set__value self (VStr s)) =
                 Ok (VNum (PyInt (py_hash (VStr s)))))
    by (unfold value; simpl; rewrite Hcls; reflexivity).
  rewrite Hval. repeat split.
  - discriminate.
  - intros v Hv. inversion Hv. reflexivity.
Qed.

(** C10: a [DateField] constructed with [later_than] only and no hint
    cannot prompt: the prompt text takes [strftime] of [earlier_than],
    which is [None], so [render] raises [AttributeError] before any line is
    read or anything is written, whatever is waiting to be typed. *)
Theorem date_prompt_fails_without_earlier
    (label : string) (later : datetime) (hint : option string) (w : world) :
  str_truthy hint = false ->
  exists self,
    DateField.__init__ label None (Some later) hint = Ok self /\
    _formatted_input self = Raise AttributeError /\
    render self w = (Raise AttributeError, self, w).
Proof.
  intros Hhint. eexists. split; [reflexivity |].
  assert (Hp : _formatted_input
                 (_InputField.__init__
                    (C_DateField (mkDate None (Some later))) label hint)
               = Raise AttributeError).
  { unfold _formatted_input, DateField._formatted_input. simpl.
    rewrite Hhint. reflexivity. }
  split; [exact Hp |].
  unfold render. destruct w as [lines out]. simpl.
  destruct lines; simpl; rewrite Hp; reflexivity.
Qed.

(** C6: constructing a [DateField] either succeeds or raises [ValueError];
    it raises (an exception that is not a [ValidateError]) iff both
    [earlier_than] and [later_than] are given and [later_than] is not
    strictly less than [earlier_than]; and a field constructed with
    [later_than < earlier_than] accepts a date [v] iff
    [later_than < v < earlier_than] strictly. *)
Theorem date_init_interval
    (label : string) (earlier later : option datetime) (hint : option string) :
  ((exists self, DateField.__init__ label earlier later hint = Ok self) \/
   (exists text args,
      DateField.__init__ label earlier later hint
      = Raise (ValueError text args))) /\
  ((exists e, DateField.__init__ label earlier later hint = Raise e /\
              is_ValidateError e = false) <->
   (exists de dl, earlier = Some de /\ later = Some dl /\
                  dt_lt dl de = false)) /\
  (forall de dl,
     earlier = Some de -> later = Some dl -> dt_lt dl de = true ->
     exists self,
       DateField.__init__ label earlier later hint = Ok self /\
       forall v, validate self (VDate v) = Ok None <->
                 dt_lt dl v = true /\ dt_lt v de = true).
Proof.
  unfold DateField.__init__.
  destruct earlier as [de|], later as [dl|]; simpl;
    try (split; [eauto | split; [split |]];
         [ intros (e & He & _); discriminate
         | intros (de' & dl' & H1 & H2 & _); discriminate
         | intros de' dl' H1 H2; discriminate ]).
  destruct (dt_lt dl de) eqn:Hlt; simpl.
  - split; [eauto | split; [split |]].
    + intros (e & He & _). discriminate.
    + intros (de' & dl' & H1 & H2 & H3). inversion H1. inversion H2.
      subst. congruence.
    + intros de' dl' H1 H2 _. inversion H1. inversion H2. subst de' dl'.
      eexists. split; [reflexivity |].
      intros v. unfold validate, DateField.validate. simpl.
      destruct (dt_lt dl v), (dt_lt v de); simpl; split;
        try reflexivity; try discriminate; try tauto;
        intros [? ?]; discriminate.
  - split; [eauto | split; [split |]].
    + intros _. eauto.
    + intros _. eexists. split; [reflexivity | reflexivity].
    + intros de' dl' H1 H2 H3. inversion H1. inversion H2. subst. congruence.
Qed.

End HashedAndDate.

(** ** Forms *)

Section Forms.
Context {B : Builtins}.

(** C8 (the code departs from the claim): on a form whose [form_name] was
    never assigned, [show] does not skip the banner and go on to the
    fields: reading [self.form_name] raises [AttributeError], nothing is
    written, no field is rendered and no mapping is returned. *)
Theorem show_without_form_name
    (attrs : list (string * attr_value)) (h : heap) (w : world) :
  Form.show {| form_name := Unset; attrs := attrs |} h w
  = (Raise AttributeError, h, w).
Proof. reflexivity. Qed.

(** With a [form_name] that is a non-empty string, the banner is printed
    first. *)
Lemma show_name_prints_banner (self : form) (name : string) (w : world) :
  form_name self = Attr (Some name) -> name <> "" ->
  Form.show_name self w =
  (Ok tt,
   mkWorld (stdin w)
     (stdout w ++ [Printed ("==========" ++ str_upper name ++ "==========")])).
Proof.
  intros Hn Hne. unfold Form.show_name. rewrite Hn. simpl.
  destruct name; [contradiction | reflexivity].
Qed.

(** With a [form_name] that is [None] or empty, nothing is printed. *)
Lemma show_name_skips_banner (self : form) (name : option string) (w : world) :
  form_name self = Attr name -> str_truthy name = false ->
  Form.show_name self w = (Ok tt, w).
Proof.
  intros Hn Hf. unfold Form.show_name. rewrite Hn. simpl. rewrite Hf.
  reflexivity.
Qed.

Lemma dict_set_new_key (d : dict) (k : string) (v : pyval) :
  ~ In k (map fst d) -> dict_set d k v = (d ++ [(k, v)])%list.
Proof.
  induction d as [|[k' v'] d IH]; simpl; intros Hk; [reflexivity |].
  destruct (String.eqb_spec k k') as [-> | Hne]; [tauto |].
  rewrite IH by tauto. reflexivity.
Qed.





End Forms.

(** ** The properties on concrete inputs *)

Module OnExamples.
Import Examples.

#[local] Existing Instance Plain.builtins.

(** The example of the specification, with a form name: the lines
    [Alice] and [30] give the mapping of [name] and [age]. *)
Example show_signup :
  Form.show (signup (Attr (Some "signup"))) signup_heap
    (mkWorld ["Alice"; "30"] [])
  = (Ok [("name", VStr "Alice"); ("age", VNum (PyInt 30))],
     [Input (set__value name (VStr "Alice"));
      Input (set__value age (VNum (PyInt 30)))],
     mkWorld []
       [Printed "==========SIGNUP==========";
        Prompted "Name (max. 256): "; Prompted "Age (<120): "]).
Proof. reflexivity. Qed.

(** The same form without a form name. *)
Example show_signup_unnamed :
  Form.show (signup Unset) signup_heap (mkWorld ["Alice"; "30"] [])
  = (Raise AttributeError, signup_heap, mkWorld ["Alice"; "30"] []).
Proof. reflexivity. Qed.

(** C3, as the claim states it, fails with both bounds set and
    [min_value = 0]: [IntegerField("n", max_value=10, min_value=0)]
    accepts [-3], which is not above [min_value]. *)
Lemma numeric_zero_min_counterexample :
  IntegerField.__init__ "n" (Some (PyInt 10)) (Some (PyInt 0)) None
  = Ok (bounded (Some (PyInt 0)) (Some (PyInt 10))) /\
  ~ (validate (bounded (Some (PyInt 0)) (Some (PyInt 10))) (VNum (PyInt (-3)))
     = Ok None <->
     num_lt (PyInt 0) (PyInt (-3)) = true /\
     num_lt (PyInt (-3)) (PyInt 10) = true).
Proof.
  split; [reflexivity |].
  intros [H _]. destruct (H eq_refl) as [H0 _]. discriminate H0.
Qed.

(** C4, as the claim states it, fails when [max_value] is not above 0.
    With [max_value = -5] the constructor repairs [min_value] to [-7] and
    [-10] is rejected although it is below [max_value]; with
    [max_value = 0] no bound is checked and [5] is accepted although it is
    not below [max_value]. *)
Lemma zero_min_counterexample :
  (IntegerField.__init__ "n" (Some (PyInt (-5))) (Some (PyInt 0)) None
   = Ok (bounded (Some (PyInt (-7))) (Some (PyInt (-5)))) /\
   ~ (validate (bounded (Some (PyInt (-7))) (Some (PyInt (-5))))
        (VNum (PyInt (-10))) = Ok None <->
      num_lt (PyInt (-10)) (PyInt (-5)) = true)) /\
  (IntegerField.__init__ "n" (Some (PyInt 0)) (Some (PyInt 0)) None
   = Ok (bounded (Some (PyInt 0)) (Some (PyInt 0))) /\
   ~ (validate (bounded (Some (PyInt 0)) (Some (PyInt 0)))
        (VNum (PyInt 5)) = Ok None <->
      num_lt (PyInt 5) (PyInt 0) = true)).
Proof.
  split; (split; [reflexivity |]).
  - intros [_ H]. discriminate (H eq_refl).
  - intros [H _]. discriminate (H eq_refl).
Qed.

(** C3 on concrete fields: bounds 5 only, 9 only, 5 and 9, and none. *)
Lemma numeric_validate_nonzero_bounds_witness :
  (validate (bounded (Some (PyInt 5)) None) (VNum (PyInt 7)) = Ok None <->
   num_gt (PyInt 7) (PyInt 5) = true) /\
  (validate (bounded None (Some (PyInt 9))) (VNum (PyInt 7)) = Ok None <->
   num_lt (PyInt 7) (PyInt 9) = true) /\
  (validate (bounded (Some (PyInt 5)) (Some (PyInt 9))) (VNum (PyInt 9))
   = Ok None <->
   num_lt (PyInt 5) (PyInt 9) = true /\ num_lt (PyInt 9) (PyInt 9) = true) /\
  validate (bounded None None) (VNum (PyInt 7)) = Ok None.
Proof.
  split; [| split; [| split]].
  - exact (proj1 (numeric_validate_nonzero_bounds
                    (bounded (Some (PyInt 5)) None) _ (PyInt 7) eq_refl)
             (PyInt 5) eq_refl eq_refl eq_refl).
  - exact (proj1 (proj2 (numeric_validate_nonzero_bounds
                    (bounded None (Some (PyInt 9))) _ (PyInt 7) eq_refl))
             (PyInt 9) eq_refl eq_refl eq_refl).
  - exact (proj1 (proj2 (proj2 (numeric_validate_nonzero_bounds
                    (bounded (Some (PyInt 5)) (Some (PyInt 9))) _ (PyInt 9)
                    eq_refl)))
             (PyInt 5) (PyInt 9) eq_refl eq_refl eq_refl eq_refl).
  - exact (proj2 (proj2 (proj2 (numeric_validate_nonzero_bounds
                    (bounded None None) _ (PyInt 7) eq_refl)))
             eq_refl eq_refl).
Defined.

(** C4 on [min_value = 0], [max_value = 120]: [-5] is accepted. *)
Lemma zero_min_takes_max_branch_witness :
  exists i,
    IntegerField.__init__ "Age" (Some (PyInt 120)) (Some (PyInt 0)) None
    = Ok i /\
    validate i (VNum (PyInt (-5))) = Ok None.
Proof.
  destruct (zero_min_takes_max_branch "Age" None 2 (PyInt 0) (PyInt 120)
              eq_refl eq_refl) as (i & f & Hi & _ & H).
  exists i. split; [exact Hi |].
  destruct (H i (PyInt (-5)) (or_introl eq_refl)) as (_ & Hacc & _).
  apply Hacc. reflexivity.
Defined.



(** The float 30.5 assigned to [age] is stored as the int 30. *)
Example assign_float_to_age :
  value_setter age (VNum (PyFloat 30.5))
  = (Ok tt, set__value age (VNum (PyInt 30))).
Proof. reflexivity. Qed.

(** C5 on [min_value = 10], [max_value = 5]: [min_value] becomes 3; on
    the floats [min_value = 4.0], [max_value = 2.5]: [min_value] becomes
    0.5. *)
Lemma numeric_init_repairs_min_witness :
  (IntegerField.__init__ "n" (Some (PyInt 5)) (Some (PyInt 10)) None
   = Ok (bounded (Some (PyInt 3)) (Some (PyInt 5))) /\
   FloatField.__init__ "n" 2 (Some (PyInt 5)) (Some (PyInt 10)) None
   = Ok {| cls := C_FloatField
                    {| min_value := Some (PyInt 3);
                       max_value := Some (PyInt 5) |} 2;
           label := "n"; hint := None; _value := VNone |}) /\
  FloatField.__init__ "n" 2 (Some (PyFloat 2.5)) (Some (PyFloat 4)) None
  = Ok {| cls := C_FloatField
                   {| min_value := Some (PyFloat 0.5);
                      max_value := Some (PyFloat 2.5) |} 2;
          label := "n"; hint := None; _value := VNone |}.
Proof.
  split.
  - exact (numeric_init_repairs_min "n" None 2 (PyInt 10) (PyInt 5) eq_refl).
  - exact (proj2 (numeric_init_repairs_min "n" None 2
                    (PyFloat 4) (PyFloat 2.5) eq_refl)).
Defined.

(** C6 on the dates of the specification: [earlier_than = 2020-01-01]
    with [later_than = 2021-01-01] fails construction; with
    [later_than = 2019-01-01] it succeeds, 2019-06-15 is accepted and the
    bound 2019-01-01 itself is not. *)
Lemma date_init_interval_witness :
  (exists e,
     DateField.__init__ "Day" (Some (date 2020 1 1)) (Some (date 2021 1 1))
       None = Raise e /\ is_ValidateError e = false) /\
  exists self,
    DateField.__init__ "Day" (Some (date 2020 1 1)) (Some (date 2019 1 1))
      None = Ok self /\
    validate self (VDate (date 2019 6 15)) = Ok None /\
    validate self (VDate (date 2019 1 1)) <> Ok None.
Proof.
  split.
  - apply (proj1 (proj2 (date_init_interval "Day" (Some (date 2020 1 1))
                           (Some (date 2021 1 1)) None))).
    exists (date 2020 1 1), (date 2021 1 1). repeat split.
  - destruct (proj2 (proj2 (date_init_interval "Day" (Some (date 2020 1 1))
                              (Some (date 2019 1 1)) None))
                (date 2020 1 1) (date 2019 1 1) eq_refl eq_refl eq_refl)
      as (self & Hinit & Hv).
    exists self. split; [exact Hinit |]. split.
    + apply Hv. split; reflexivity.
    + intros H. apply Hv in H. destruct H as [H _]. discriminate H.
Defined.

(** C7 on the field [age] and the lines [130], [200], [30], [x]: two
    rejections, each printed and followed by the prompt, then 30 is stored
    and [x] is left unread. *)
Lemma render_catches_ValidateError_witness :
  render age (mkWorld ["130"; "200"; "30"; "x"] []) =
  (Ok tt,
   {| cls := cls age; label := "Age"; hint := None;
      _value := VNum (PyInt 30) |},
   mkWorld ["x"]
     [Prompted "Age (<120): ";
      Printed "max_value = 120, input = 130";
      Prompted "Age (<120): ";
      Printed "max_value = 120, input = 200";
      Prompted "Age (<120): "]).
Proof.
  refine (proj1 (proj2 (proj2 (render_catches_ValidateError age
                                 (mkWorld ["130"; "200"; "30"; "x"] []))))
            "Age (<120): " ["130"; "200"] "30" ["x"] (VNum (PyInt 30))
            eq_refl eq_refl _ eq_refl eq_refl).
  repeat constructor; eexists; eexists; reflexivity.
Defined.

(** The message of a failed conversion is the text of the exception's
    arguments; the first holds an apostrophe, so it is shown between
    double quotes. *)
Example rejection_of_text :
  rejection age "abc"
  = Some ("("
          ++ String Plain.double_quote
               "value_type declared does not match with provided value's type"
          ++ String Plain.double_quote ", <class 'int'>, <class 'str'>)").
Proof. reflexivity. Qed.

(** C9 on the text [secret]. *)
Lemma hashed_value_is_hash_witness :
  value (set__value password (VStr "secret"))
  = Ok (VNum (PyInt (py_hash (VStr "secret")))) /\
  value (set__value password (VStr "secret")) <> Ok (VStr "secret") /\
  (forall v, value (set__value password (VStr "secret")) = Ok v ->
             py_eq v (VStr "secret") = false).
Proof.
  exact (hashed_value_is_hash password
           (set__value password (VStr "secret"))
           (Some _DEFAULT_MAX_LENGTH) "secret" eq_refl eq_refl).
Defined.

(** C10 on [DateField("Day", later_than=2019-01-01)] with a line
    waiting. *)
Lemma date_prompt_fails_without_earlier_witness :
  exists self,
    DateField.__init__ "Day" None (Some (date 2019 1 1)) None = Ok self /\
    _formatted_input self = Raise AttributeError /\
    render self (mkWorld ["02.01.2019"] [])
    = (Raise AttributeError, self, mkWorld ["02.01.2019"] []).
Proof.
  exact (date_prompt_fails_without_earlier "Day" (date 2019 1 1) None
           (mkWorld ["02.01.2019"] []) eq_refl).
Defined.

End OnExamples.

(** * Further properties *)

(** ** Text fields *)

Section TextFields.
Context {B : Builtins}.

Lemma string_validate_fits (max_length : option Z) (self : field) (s : string) :
  StringField.validate max_length self (VStr s) = Ok None <->
  fits max_length s.
Proof.
  unfold StringField.validate, fits, _InputField.validate. simpl.
  destruct max_length as [m|]; [| tauto].
  destruct (Z.eqb_spec m 0) as [-> | Hm]; simpl; [tauto |].
  destruct (Z.gtb_spec (py_len s) m) as [Hgt | Hle]; split; intros Hs;
    try reflexivity; try discriminate; lia.
Qed.

Lemma setter_of_str (self : field) (s : string) :
  value_type (cls self) = T_str ->
  value_setter self (VStr s) =
  match validate self (VStr s) with
  | Ok None => (Ok tt, set__value self (VStr s))
  | Ok (Some e) => (Raise e, self)
  | Raise e => (Raise e, self)
  end.
Proof.
  intros Ht. unfold value_setter, _convert_type, _InputField._convert_type.
  destruct (cls self); simpl in Ht; try discriminate; rewrite ?Ht; reflexivity.
Qed.

(** X1: a [StringField] or [HashedField] with a limit [m] other than 0
    stores a text iff its length is at most [m], and rejects a longer one
    with the error that carries [m]; with [max_length] 0 or [None] every
    text is stored. *)
Theorem string_length_limit
    (self : field) (max_length : option Z) (s : string) :
  cls self = C_StringField max_length \/ cls self = C_HashedField max_length ->
  (forall m, max_length = Some m -> m <> 0 ->
     (value_setter self (VStr s) =
      (Ok tt,
       {| cls := cls self; label := label self; hint := hint self;
          _value := VStr s |}) <->
      py_len s <= m) /\
     (m < py_len s ->
      value_setter self (VStr s) =
      (Raise (ValidateError "max_length has been exceeded" [VNum (PyInt m)]),
       self))) /\
  (max_length = None \/ max_length = Some 0 ->
   value_setter self (VStr s) =
    (Ok tt,
     {| cls := cls self; label := label self; hint := hint self;
        _value := VStr s |})).
Proof.
  change {| cls := cls self; label := label self; hint := hint self;
            _value := VStr s |}
    with (set__value self (VStr s)).
  intros Hcls.
  assert (Hset : value_setter self (VStr s) =
                 match StringField.validate max_length self (VStr s) with
                 | Ok None => (Ok tt, set__value self (VStr s))
                 | Ok (Some e) => (Raise e, self)
                 | Raise e => (Raise e, self)
                 end).
  { rewrite setter_of_str by (destruct Hcls as [H | H]; rewrite H; reflexivity).
    unfold validate. destruct Hcls as [H | H]; rewrite H; reflexivity. }
  rewrite Hset. unfold StringField.validate, _InputField.validate. simpl.
  split.
  - intros m -> Hm. destruct (Z.eqb_spec m 0); [contradiction |]. simpl.
    destruct (Z.gtb_spec (py_len s) m) as [Hgt | Hle].
    + split; [split; [intros H; inversion H | lia] | reflexivity].
    + split; [split; [lia | reflexivity] | lia].
  - intros [-> | ->]; reflexivity.
Qed.

Lemma pattern_then_length
    (matches : bool) (e : exn) (max_length : option Z) (self : field)
    (s : string) :
  let outcome :=
    match (if negb matches then Ok (Some e)
           else StringField.validate max_length self (VStr s)) with
    | Ok None => (Ok tt, set__value self (VStr s))
    | Ok (Some e) => (Raise e, self)
    | Raise e => (Raise e, self)
    end in
  (matches = false -> outcome = (Raise e, self)) /\
  (outcome = (Ok tt, set__value self (VStr s)) <->
   matches = true /\ fits max_length s).
Proof.
  pose proof (string_validate_fits max_length self s) as Hfits.
  destruct matches; simpl.
  - split; [discriminate |].
    destruct (StringField.validate max_length self (VStr s)) as [[e'|]|e'].
    + split; [intros H; inversion H |].
      intros [_ H]. apply Hfits in H. discriminate H.
    + split; [intros _; split; [reflexivity | apply Hfits; reflexivity] |].
      reflexivity.
    + split; [intros H; inversion H |].
      intros [_ H]. apply Hfits in H. discriminate H.
  - split; [reflexivity |].
    split; [intros H; inversion H | intros [H _]; discriminate H].
Qed.

(** X2: an [EmailField] and a [PhoneNumberField] check the pattern before
    the length.  A text that does not match the pattern of the class is
    rejected with the error of the pattern, carrying the text, whatever its
    length; a text is stored iff it matches the pattern and is within
    [max_length]. *)
Theorem pattern_checked_before_length
    (self : field) (max_length : option Z) (s : string) :
  (cls self = C_EmailField max_length ->
   (re_fullmatch EmailField.r s = false ->
    value_setter self (VStr s) =
    (Raise (ValidateError "can't extract email from string " [VStr s]), self))
   /\
   (value_setter self (VStr s) =
    (Ok tt,
     {| cls := cls self; label := label self; hint := hint self;
        _value := VStr s |}) <->
    re_fullmatch EmailField.r s = true /\ fits max_length s)) /\
  (cls self = C_PhoneNumberField max_length ->
   (re_fullmatch PhoneNumberField.r s = false ->
    value_setter self (VStr s) =
    (Raise (ValidateError "can't extract phone number from string" [VStr s]),
     self))
   /\
   (value_setter self (VStr s) =
    (Ok tt,
     {| cls := cls self; label := label self; hint := hint self;
        _value := VStr s |}) <->
    re_fullmatch PhoneNumberField.r s = true /\ fits max_length s)).
Proof.
  change {| cls := cls self; label := label self; hint := hint self;
            _value := VStr s |}
    with (set__value self (VStr s)).
  split; intros Hcls;
    rewrite setter_of_str by (rewrite Hcls; reflexivity);
    unfold validate; rewrite Hcls;
    unfold EmailField.validate, PhoneNumberField.validate;
    apply pattern_then_length.
Qed.

(** Conversion by class.  For the classes whose [value_type] is [str]
    every text converts to itself; an [IntegerField] and a [FloatField]
    convert exactly the texts that [int] and [float] accept, and fail with
    the error that carries the declared type and [str]; a [DateField]
    converts exactly the texts [strptime] parses with [%d.%m.%Y], and fails
    with the error that carries the text and the format. *)
Lemma convert_type_by_class (self : field) (raw : string) :
  (value_type (cls self) = T_str -> _convert_type self (VStr raw) = Ok (VStr raw)) /\
  (value_type (cls self) = T_int ->
   _convert_type self (VStr raw) =
   match py_int raw with
   | Some z => Ok (VNum (PyInt z))
   | None =>
       Raise (ValidateError
         "value_type declared does not match with provided value's type"
         [VType T_int; VType T_str])
   end) /\
  (value_type (cls self) = T_float ->
   _convert_type self (VStr raw) =
   match py_float raw with
   | Some f => Ok (VNum (PyFloat f))
   | None =>
       Raise (ValidateError
         "value_type declared does not match with provided value's type"
         [VType T_float; VType T_str])
   end) /\
  (value_type (cls self) = T_datetime ->
   _convert_type self (VStr raw) =
   match strptime raw "%d.%m.%Y" with
   | Some d => Ok (VDate d)
   | None =>
       Raise (ValidateError "can't parse datetime from string"
                [VStr raw; VStr "%d.%m.%Y"])
   end).
Proof.
  unfold _convert_type, _InputField._convert_type, DateField._convert_type,
    DateField.format_string.
  destruct (cls self); simpl; repeat split; intros H; try discriminate;
    try reflexivity;
    match goal with
    | |- context [py_int raw] => destruct (py_int raw)
    | |- context [py_float raw] => destruct (py_float raw)
    | |- context [strptime raw ?f] => destruct (strptime raw f)
    end;
    reflexivity.
Qed.

End TextFields.

(** ** Dates, prompts and repaired bounds *)

Section DatesAndPrompts.
Context {B : Builtins}.

Lemma dt_compare_refl (a : datetime) : dt_compare a a = Eq.
Proof. unfold dt_compare. rewrite !Z.compare_refl. reflexivity. Qed.

(** X3: a [DateField] with one bound.  With [earlier_than] only, a date
    [v] is accepted iff [v < earlier_than]; with [later_than] only, iff
    [v > later_than]; the bound itself is rejected in both cases; with
    neither bound every date is accepted. *)
Theorem date_validate_single_bound
    (self : field) (d : date_attrs) (v : datetime) :
  cls self = C_DateField d ->
  (forall e, earlier_than d = Some e -> later_than d = None ->
     (validate self (VDate v) = Ok None <-> dt_lt v e = true) /\
     validate self (VDate e) <> Ok None) /\
  (forall l, earlier_than d = None -> later_than d = Some l ->
     (validate self (VDate v) = Ok None <-> dt_gt v l = true) /\
     validate self (VDate l) <> Ok None) /\
  (earlier_than d = None -> later_than d = None ->
     validate self (VDate v) = Ok None).
Proof.
  intros Hcls. unfold validate. rewrite Hcls.
  unfold DateField.validate, _InputField.validate.
  split; [| split].
  - intros e He Hl. rewrite He, Hl. simpl. split.
    + destruct (dt_lt v e); simpl; split; congruence.
    + unfold dt_lt. rewrite dt_compare_refl. simpl. discriminate.
  - intros l He Hl. rewrite He, Hl. simpl. split.
    + destruct (dt_gt v l); simpl; split; congruence.
    + unfold dt_gt. rewrite dt_compare_refl. simpl. discriminate.
  - intros He Hl. rewrite He, Hl. reflexivity.
Qed.


(** A bound that is true is not equal to 0: the last alternative of the
    [<max] condition of the numeric prompt never holds. *)
Lemma truthy_not_zero (o : option pynum) :
  truthy o = true -> py_eq (of_bound o) (VNum (PyInt 0)) = false.
Proof.
  destruct o as [x|]; simpl; [| discriminate].
  intros Ht. destruct (num_eq x (PyInt 0)) eqn:Hz; [| reflexivity].
  apply zero_not_truthy in Hz. congruence.
Qed.

(** X5: the prompt of a numeric field, when [str.format] fills the one
    placeholder of the template with the first of its two arguments (as it
    does for a label without braces).  With a hint the prompt shows the
    hint followed by a comma and no bound, whatever the bounds are; without
    a hint it shows [>min], [<max] or [min < n < max] for the bounds that
    are true, and empty parentheses when none is. *)
Theorem numeric_prompt_hint_hides_bound (self : field) (n : numeric_attrs) :
  bounds_of (cls self) = Some n ->
  (forall a b,
     str_format (format_str (label self) BOLD ++ " ({}): ") [VStr a; VStr b]
     = inl (format_str (label self) BOLD ++ " (" ++ a ++ "): ")) ->
  (forall h, hint self = Some h -> h <> "" ->
     _formatted_input self
     = Ok (format_str (label self) BOLD ++ " (" ++ (h ++ ", ") ++ "): ")) /\
  (str_truthy (hint self) = false ->
     (truthy (min_value n) = true -> truthy (max_value n) = false ->
      _formatted_input self
      = Ok (format_str (label self) BOLD
            ++ " (" ++ (">" ++ py_str (of_bound (min_value n))) ++ "): ")) /\
     (truthy (min_value n) = false -> truthy (max_value n) = true ->
      _formatted_input self
      = Ok (format_str (label self) BOLD
            ++ " (" ++ ("<" ++ py_str (of_bound (max_value n))) ++ "): ")) /\
     (truthy (min_value n) = true -> truthy (max_value n) = true ->
      _formatted_input self
      = Ok (format_str (label self) BOLD
            ++ " (" ++ (py_str (of_bound (min_value n)) ++ " < n < "
                        ++ py_str (of_bound (max_value n))) ++ "): ")) /\
     (truthy (min_value n) = false -> truthy (max_value n) = false ->
      _formatted_input self
      = Ok (format_str (label self) BOLD ++ " (" ++ "" ++ "): "))).
Proof.
  intros Hn Hfmt.
  assert (Hp : _formatted_input self = _NumericField._formatted_input n self)
    by (unfold _formatted_input; destruct (cls self); simpl in Hn;
        inversion Hn; reflexivity).
  rewrite Hp. unfold _NumericField._formatted_input, format, append. simpl.
  split.
  - intros h Hh Hne. rewrite Hh.
    assert (Ht : str_truthy (Some h) = true) by (destruct h; [contradiction | reflexivity]).
    rewrite Ht. simpl.
    destruct (truthy (min_value n)), (truthy (max_value n)); simpl;
      try destruct (py_eq (of_bound (max_value n)) (VNum (PyInt 0))); simpl;
      rewrite Hfmt; reflexivity.
  - intros Hh. rewrite Hh. simpl.
    repeat split; intros Hmin Hmax; rewrite Hmin, Hmax; simpl;
      rewrite ?(truthy_not_zero _ Hmax); simpl; rewrite Hfmt; reflexivity.
Qed.

(** X6: what the repair of the constructor leaves.  An [IntegerField]
    constructed with integers [min_value > max_value] accepts exactly one
    integer, [max_value - 1], unless [max_value] is 2 or 0: with
    [max_value = 2] the repaired [min_value] is 0 and every integer below 2
    is accepted; with [max_value = 0] it accepts every integer above -2,
    the ones above [max_value] included. *)
Theorem repaired_integer_field
    (label : string) (hint : option string) (mn mx : Z) :
  mx < mn ->
  exists self,
    IntegerField.__init__ label (Some (PyInt mx)) (Some (PyInt mn)) hint
    = Ok self /\
    (mx <> 0 -> mx <> 2 ->
     forall v, validate self (VNum (PyInt v)) = Ok None <-> v = mx - 1) /\
    (mx = 2 ->
     forall v, validate self (VNum (PyInt v)) = Ok None <-> v < 2) /\
    (mx = 0 ->
     forall v, validate self (VNum (PyInt v)) = Ok None <-> -2 < v).
Proof.
  intros Hlt.
  unfold IntegerField.__init__, _NumericField.__init__. simpl.
  destruct (Z.gtb_spec mn mx) as [_ | Hle]; [| lia]. simpl.
  eexists. split; [reflexivity |].
  set (n := {| min_value := Some (PyInt (mx - 2));
               max_value := Some (PyInt mx) |}).
  set (self := _InputField.__init__ (C_IntegerField n) label hint).
  assert (Hv : forall v, validate self (VNum (PyInt v))
                         = _NumericField.validate n self (VNum (PyInt v)))
    by reflexivity.
  split; [| split].
  - intros H0 H2 v. rewrite Hv.
    rewrite (validate_both_branch n self (PyInt (mx - 2)) (PyInt mx))
      by (try reflexivity; simpl; apply negb_true_iff, Z.eqb_neq; lia).
    rewrite if_accepts, andb_true_iff. simpl.
    rewrite !Z.ltb_lt. lia.
  - intros -> v. rewrite Hv.
    rewrite (validate_max_branch n self (PyInt 2)) by reflexivity.
    rewrite if_accepts. simpl. apply Z.ltb_lt.
  - intros -> v. rewrite Hv.
    rewrite (validate_min_branch n self (PyInt (-2))) by reflexivity.
    rewrite if_accepts. simpl. apply Z.ltb_lt.
Qed.

(** X7: reading [value] after a successful assignment.  The converted
    input is what [_value] holds; a [FloatField] reads it back rounded to
    [mantissa] digits (the stored number stays as converted), a
    [HashedField] reads back its hash, and every other class reads back
    the converted input itself.  A [FloatField] that holds no value yet
    cannot be read: [round(None, mantissa)] raises [TypeError]. *)
Theorem value_read_after_store (self self' : field) (raw : string) :
  (value_setter self (VStr raw) = (Ok tt, self') ->
   exists v,
     _convert_type self (VStr raw) = Ok v /\ _value self' = v /\
     match cls self with
     | C_FloatField _ mantissa =>
         exists f, py_float raw = Some f /\ v = VNum (PyFloat f) /\
                   value self' = Ok (VNum (py_round (PyFloat f) mantissa))
     | C_HashedField _ => value self' = Ok (VNum (PyInt (py_hash v)))
     | _ => value self' = Ok v
     end) /\
  (forall n mantissa,
     cls self = C_FloatField n mantissa -> _value self = VNone ->
     value self = Raise TypeError).
Proof.
  split.
  - intros Hset.
    destruct (value_setter_text self raw)
      as [(v & _ & Hc & _ & Hs) | (t & a & _ & Hs)];
      rewrite Hs in Hset; inversion Hset; subst self'; clear Hset.
    exists v. split; [exact Hc |]. split; [reflexivity |].
    unfold value, _convert_type, _InputField._convert_type in *. simpl.
    destruct (cls self) as [|n|n mt|m|m|m|m|d]; simpl in *; try reflexivity.
    destruct (py_float raw) as [f|]; inversion Hc. subst v.
    exists f. repeat split.
  - intros n mantissa Hcls Hnone. unfold value, FloatField.value.
    rewrite Hcls, Hnone. reflexivity.
Qed.

End DatesAndPrompts.

(** ** More on the render loop *)

Section RenderMore.
Context {B : Builtins}.





End RenderMore.

(** ** More on forms *)

Section FormsMore.
Context {B : Builtins}.


(** X12: the converse for the loop of [show]: when the fields render one
    after the other, [show] returns the mapping extended with their
    entries, in order. *)
Theorem show_loop_complete (fields : list (string * nat)) :
  forall res h w entries h' w',
    renders h w fields entries h' w' ->
    NoDup (map fst res ++ map fst fields) ->
    Form.show_loop fields res h w = (Ok (res ++ entries)%list, h', w').
Proof.
  intros res h w entries h' w' Hren. revert res.
  induction Hren as [| h h1 h' w w1 w' name i v fields entries Hr _ IH];
    intros res Hnd; simpl.
  - rewrite app_nil_r. reflexivity.
  - rewrite Hr.
    assert (Hfresh : ~ In name (map fst res)).
    { apply NoDup_remove_2 in Hnd. intros Hin. apply Hnd.
      apply in_or_app. left. exact Hin. }
    rewrite dict_set_new_key by exact Hfresh.
    rewrite IH by (rewrite map_app, <- app_assoc; exact Hnd).
    rewrite <- app_assoc. reflexivity.
Qed.

(** X13: a field that fails ends [show].  When the fields before it render
    and its own rendering raises, [show] raises the same exception: the
    fields after it are not rendered and no mapping is returned, while the
    objects and the terminal are as the failing field left them. *)
Theorem show_loop_stops_at_failure (fields1 : list (string * nat)) :
  forall res h w entries h1 w1 name i e h2 w2 fields2,
    renders h w fields1 entries h1 w1 ->
    Form.render_field h1 i w1 = (Raise e, h2, w2) ->
    Form.show_loop (fields1 ++ (name, i) :: fields2) res h w
    = (Raise e, h2, w2).
Proof.
  intros res h w entries h1 w1 name i e h2 w2 fields2 Hren. revert res.
  induction Hren as [| h h1 h' w w1 w' name' i' v fields entries Hr _ IH];
    intros res Hfail; simpl.
  - rewrite Hfail. reflexivity.
  - rewrite Hr. apply IH. exact Hfail.
Qed.

Lemma all_match_true (h : heap) (first : nat) (fields : list nat) :
  Form.all_match h first fields = Ok true <->
  forall i, In i fields ->
    exists a b, Form.field_value h first = Ok a /\
                Form.field_value h i = Ok b /\ py_eq a b = true.
Proof.
  induction fields as [|j fields IH]; simpl.
  - split; [intros _ i [] | reflexivity].
  - split.
    + intros H i.
      destruct (Form.field_value h first) as [a|e] eqn:Ha; [| discriminate H].
      destruct (Form.field_value h j) as [b|e] eqn:Hb; [| discriminate H].
      simpl in H. destruct (py_eq a b) eqn:Heq; [| discriminate H].
      intros [<- | Hin].
      * exists a, b. rewrite Hb. auto.
      * destruct (proj1 IH H i Hin) as (a' & b' & Ha' & Hb' & Heq').
        exists a', b'. auto.
    + intros H.
      destruct (H j (or_introl eq_refl)) as (a & b & Ha & Hb & Heq).
      rewrite Ha, Hb. simpl. rewrite Heq. apply IH.
      intros i Hin. destruct (H i (or_intror Hin)) as (a' & b' & Ha' & Hb' & Heq').
      rewrite Ha in Ha'. exists a', b'. rewrite Ha. auto.
Qed.

Lemma all_match_false (h : heap) (first : nat) (fields : list nat) :
  Form.all_match h first fields = Ok false ->
  exists i a b, In i fields /\ Form.field_value h first = Ok a /\
                Form.field_value h i = Ok b /\ py_eq a b = false.
Proof.
  induction fields as [|j fields IH]; simpl; [discriminate |].
  intros H.
  destruct (Form.field_value h first) as [a|e] eqn:Ha; [| discriminate H].
  destruct (Form.field_value h j) as [b|e] eqn:Hb; [| discriminate H].
  simpl in H. destruct (py_eq a b) eqn:Heq.
  - destruct (IH H) as (i & a' & b' & Hin & Ha' & Hb' & Heq').
    exists i, a', b'. auto.
  - exists j, a, b. auto.
Qed.

(** X14: [is_valid].  Without [_should_match], or with an empty one, the
    form is valid whatever its fields hold.  Otherwise it is valid exactly
    when the value of every listed field can be read and equals that of
    the first, the first included; and when it is reported invalid, some
    listed field reads a value different from the first's. *)
Theorem is_valid_all_equal (first : nat) (rest : list nat) (h : heap) :
  Form.is_valid Unset h = Ok true /\
  Form.is_valid (Attr []) h = Ok true /\
  (Form.is_valid (Attr (first :: rest)) h = Ok true <->
   forall i, In i (first :: rest) ->
     exists a b, Form.field_value h first = Ok a /\
                 Form.field_value h i = Ok b /\ py_eq a b = true) /\
  (Form.is_valid (Attr (first :: rest)) h = Ok false ->
   exists i a b, In i (first :: rest) /\
                 Form.field_value h first = Ok a /\
                 Form.field_value h i = Ok b /\ py_eq a b = false).
Proof.
  split; [reflexivity |]. split; [reflexivity |].
  unfold Form.is_valid. simpl hd.
  pose proof (all_match_true h first (first :: rest)) as Ht.
  pose proof (all_match_false h first (first :: rest)) as Hf.
  destruct (Form.all_match h first (first :: rest)) as [[|]|e]; simpl.
  - split; [| discriminate]. split; [intros _; apply Ht; reflexivity | reflexivity].
  - split; [| intros _; apply Hf; reflexivity].
    split; [discriminate | intros H; apply Ht in H; discriminate H].
  - split; [| discriminate].
    split; [discriminate | intros H; apply Ht in H; discriminate H].
Qed.

(** X15: on two hashed fields, [is_valid] compares hashes: the form is
    valid exactly when the hashes of the two stored values are equal, so
    equal texts always match, and different texts match when their hashes
    collide. *)
Theorem is_valid_compares_hashes
    (h : heap) (i j : nat) (f g : field) (mf mg : option Z) :
  nth_error h i = Some (Input f) -> nth_error h j = Some (Input g) ->
  cls f = C_HashedField mf -> cls g = C_HashedField mg ->
  Form.is_valid (Attr [i; j]) h
  = Ok (py_hash (_value f) =? py_hash (_value g)) /\
  (_value f = _value g -> Form.is_valid (Attr [i; j]) h = Ok true).
Proof.
  intros Hi Hj Hf Hg.
  assert (H : Form.is_valid (Attr [i; j]) h
              = Ok (py_hash (_value f) =? py_hash (_value g))).
  { unfold Form.is_valid, Form.all_match, Form.field_value, value,
      HashedField.value. simpl. rewrite Hi, Hj, Hf, Hg. simpl.
    rewrite Z.eqb_refl.
    destruct (py_hash (_value f) =? py_hash (_value g)); reflexivity. }
  split; [exact H |].
  intros Heq. rewrite H, Heq, Z.eqb_refl. reflexivity.
Qed.

End FormsMore.

(** ** The further properties on concrete inputs *)

Module OnMoreExamples.
Import Examples.

#[local] Existing Instance Plain.builtins.

(** X1 on the field of the repository's test: [max_length = 1] and the
    text [123123]; one character of two bytes is within the limit. *)
Lemma string_length_limit_witness :
  value_setter one_char (VStr "123123")
  = (Raise (ValidateError "max_length has been exceeded" [VNum (PyInt 1)]),
     one_char) /\
  (value_setter one_char (VStr "7")
   = (Ok tt, {| cls := cls one_char; label := "TestField"; hint := None;
                _value := VStr "7" |}) <->
   py_len "7" <= 1) /\
  value_setter one_char (VStr e_acute)
  = (Ok tt, {| cls := cls one_char; label := "TestField"; hint := None;
               _value := VStr e_acute |}).
Proof.
  destruct (string_length_limit one_char (Some 1) "123123"
              (or_introl eq_refl)) as [H _].
  destruct (string_length_limit one_char (Some 1) "7"
              (or_introl eq_refl)) as [H' _].
  destruct (string_length_limit one_char (Some 1) e_acute
              (or_introl eq_refl)) as [H'' _].
  split; [| split].
  - apply (H 1 eq_refl); [discriminate | reflexivity].
  - apply (H' 1 eq_refl). discriminate.
  - apply (H'' 1 eq_refl); [discriminate | vm_compute; discriminate].
Defined.

(** The length of a text is counted in characters: the two bytes of
    [e_acute] are one. *)
Example len_of_e_acute : py_len e_acute = 1 /\ String.length e_acute = 2%nat.
Proof. split; reflexivity. Qed.

(** X2 on an [EmailField] with [max_length = 5] and a text of twelve
    characters that matches no pattern: the error is the pattern's. *)
Lemma pattern_checked_before_length_witness :
  value_setter email (VStr "not-an-email")
  = (Raise (ValidateError "can't extract email from string "
              [VStr "not-an-email"]), email).
Proof.
  apply (proj1 (proj1 (pattern_checked_before_length email (Some 5)
                         "not-an-email") eq_refl)).
  reflexivity.
Defined.

(** X3 on the bound 2020-01-01. *)
Lemma date_validate_single_bound_witness :
  (validate before_2020 (VDate (date 2019 6 15)) = Ok None <->
   dt_lt (date 2019 6 15) (date 2020 1 1) = true) /\
  validate before_2020 (VDate (date 2020 1 1)) <> Ok None.
Proof.
  exact (proj1 (date_validate_single_bound before_2020
                  {| earlier_than := Some (date 2020 1 1);
                     later_than := None |}
                  (date 2019 6 15) eq_refl)
           (date 2020 1 1) eq_refl eq_refl).
Defined.


(** The prompt of the field whose label holds braces. *)
Example prompt_of_braces : _formatted_input braces = Raise (KeyError "x").
Proof. reflexivity. Qed.

Lemma plain_format_one_placeholder (a b : string) :
  str_format (format_str (label age_hinted) BOLD ++ " ({}): ")
    [VStr a; VStr b]
  = inl (format_str (label age_hinted) BOLD ++ " (" ++ a ++ "): ").
Proof. reflexivity. Qed.

(** X5 on a field with the bounds 1 and 120 and the hint [years]: the
    prompt shows the hint and no bound. *)
Lemma numeric_prompt_hint_hides_bound_witness :
  _formatted_input age_hinted = Ok "Age (years, ): ".
Proof.
  apply (proj1 (numeric_prompt_hint_hides_bound age_hinted
                  {| min_value := Some (PyInt 1);
                     max_value := Some (PyInt 120) |}
                  eq_refl plain_format_one_placeholder)
           "years" eq_refl).
  discriminate.
Defined.

(** X6 on [min_value = 10], [max_value = 3]: only 2 is accepted. *)
Lemma repaired_integer_field_witness :
  exists self,
    IntegerField.__init__ "n" (Some (PyInt 3)) (Some (PyInt 10)) None
    = Ok self /\
    validate self (VNum (PyInt 2)) = Ok None /\
    validate self (VNum (PyInt 1)) <> Ok None.
Proof.
  destruct (repaired_integer_field "n" None 10 3 eq_refl)
    as (self & Hinit & Hone & _).
  exists self. split; [exact Hinit |]. split.
  - apply Hone; [discriminate | discriminate | reflexivity].
  - intros H. apply Hone in H; discriminate.
Defined.

(** X7 on a [FloatField] and the text [12]. *)
Lemma value_read_after_store_witness :
  exists v,
    _convert_type price (VStr "12") = Ok v /\
    _value (set__value price (VNum (PyFloat 12))) = v /\
    exists f, py_float "12" = Some f /\ v = VNum (PyFloat f) /\
              value (set__value price (VNum (PyFloat 12)))
              = Ok (VNum (py_round (PyFloat f) 2)).
Proof.
  exact (proj1 (value_read_after_store price
                  (set__value price (VNum (PyFloat 12))) "12") eq_refl).
Defined.





Lemma signup_renders :
  renders signup_heap (mkWorld ["Alice"; "30"] [])
    [("name", 0%nat); ("age", 1%nat)]
    [("name", VStr "Alice"); ("age", VNum (PyInt 30))]
    signup_done
    (mkWorld [] [Prompted "Name (max. 256): "; Prompted "Age (<120): "]).
Proof.
  apply renders_cons
    with (h1 := [Input (set__value name (VStr "Alice")); Input age])
         (w1 := mkWorld ["30"] [Prompted "Name (max. 256): "]);
    [reflexivity |].
  apply renders_cons
    with (h1 := signup_done)
         (w1 := mkWorld []
                  [Prompted "Name (max. 256): "; Prompted "Age (<120): "]);
    [reflexivity |].
  apply renders_nil.
Qed.

(** X12 on the same fields. *)
Lemma show_loop_complete_witness :
  Form.show_loop [("name", 0%nat); ("age", 1%nat)] [] signup_heap
    (mkWorld ["Alice"; "30"] [])
  = (Ok ([] ++ [("name", VStr "Alice"); ("age", VNum (PyInt 30))])%list,
     signup_done,
     mkWorld [] [Prompted "Name (max. 256): "; Prompted "Age (<120): "]).
Proof.
  apply (show_loop_complete _ [] _ _ _ _ _ signup_renders).
  repeat constructor; simpl; intuition discriminate.
Defined.

(** X13 on the same fields with one line only: [age] finds no line and
    [show] ends in [EOFError], [name] keeping the value it stored. *)
Lemma show_loop_stops_at_failure_witness :
  Form.show_loop ([("name", 0%nat)] ++ [("age", 1%nat)]) [] signup_heap
    (mkWorld ["Alice"] [])
  = (Raise EOFError,
     [Input (set__value name (VStr "Alice")); Input age],
     mkWorld [] [Prompted "Name (max. 256): "; Prompted "Age (<120): "]).
Proof.
  apply (show_loop_stops_at_failure [("name", 0%nat)] []
           signup_heap (mkWorld ["Alice"] [])
           [("name", VStr "Alice")]
           [Input (set__value name (VStr "Alice")); Input age]
           (mkWorld [] [Prompted "Name (max. 256): "])
           "age" 1%nat EOFError _ _ []).
  - apply renders_cons
      with (h1 := [Input (set__value name (VStr "Alice")); Input age])
           (w1 := mkWorld [] [Prompted "Name (max. 256): "]);
      [reflexivity | apply renders_nil].
  - reflexivity.
Defined.

(** X14 on two hashed fields that hold the same text. *)
Lemma is_valid_all_equal_witness :
  Form.is_valid (Attr [0%nat; 1%nat]) (passwords "secret" "secret") = Ok true.
Proof.
  apply (proj2 (proj1 (proj2 (proj2 (is_valid_all_equal 0%nat [1%nat]
                                       (passwords "secret" "secret")))))).
  intros i [<- | [<- | []]]; eexists; eexists; repeat split.
Defined.

(** X15 on two hashed fields that hold different texts. *)
Lemma is_valid_compares_hashes_witness :
  Form.is_valid (Attr [0%nat; 1%nat]) (passwords "secret" "Secret")
  = Ok (py_hash (VStr "secret") =? py_hash (VStr "Secret")) /\
  (VStr "secret" = VStr "Secret" ->
   Form.is_valid (Attr [0%nat; 1%nat]) (passwords "secret" "Secret")
   = Ok true).
Proof.
  exact (is_valid_compares_hashes (passwords "secret" "Secret") 0%nat 1%nat
           (set__value password (VStr "secret"))
           (set__value confirm (VStr "Secret"))
           (Some _DEFAULT_MAX_LENGTH) (Some _DEFAULT_MAX_LENGTH)
           eq_refl eq_refl eq_refl eq_refl).
Defined.

End OnMoreExamples.
